(** * weather_bot: the /weather, /setcity and /getcity handlers of [bot.py]

    A shallow embedding of [src/bot.py]: the Python objects decoded from the
    provider's JSON, the exceptions the handlers catch, the [aiocache]
    decorator placed on [get_weather], the two database tables and the
    three command handlers, followed by the properties of the
    specification that concern them. *)

From Stdlib Require Import ZArith String Ascii List Lia Bool.
From stdpp Require Import base option strings pretty gmap fin_maps sorting.

Local Open Scope string_scope.
Local Open Scope Z_scope.

(** ** Python objects

    [response.json()] yields [None], a bool, an int, a float, a str, a list
    or a dict with str keys.  A str is kept as its UTF-8 bytes.  A float is
    kept as its [repr] (the shortest decimal that reads back to it), which
    is all the handlers ever ask of it: [str] and truth value.  A dict keeps
    its insertion order and has no two equal keys. *)

#[warnings="-register-all"]
Inductive pyobj : Type :=
| PyNone
| PyBool (b : bool)
| PyInt (z : Z)
| PyFloat (repr : string)
| PyStr (s : string)
| PyList (items : list pyobj)
| PyDict (items : list (string * pyobj)).

(** The exception classes that occur in [bot.py].  All but
    [CancelledError] derive from [Exception]; [CancelledError] derives from
    [BaseException] only and no operation modelled below raises it. *)
Inductive exn : Type :=
| HTTPStatusError (status_code : Z) (text : string)
| RequestError (detail : string)
| JSONDecodeError
| KeyError
| IndexError
| TypeError
| AttributeError
| SQLAlchemyError
| TelegramError
| CancelledError.

Inductive exn_class : Type :=
| cls_HTTPStatusError
| cls_RequestError
| cls_Exception.

Definition isinstance (e : exn) (c : exn_class) : bool :=
  match c, e with
  | cls_HTTPStatusError, HTTPStatusError _ _ => true
  | cls_HTTPStatusError, _ => false
  | cls_RequestError, RequestError _ => true
  | cls_RequestError, _ => false
  | cls_Exception, CancelledError => false
  | cls_Exception, _ => true
  end.

Inductive result (A : Type) : Type :=
| Ok (a : A)
| Raise (e : exn).
Arguments Ok {A} a.
Arguments Raise {A} e.

Definition rbind {A B : Type} (r : result A) (k : A -> result B) : result B :=
  match r with
  | Ok a => k a
  | Raise e => Raise e
  end.

Module StrOps.

(** [' '.join(parts)] *)
Fixpoint join (sep : string) (parts : list string) : string :=
  match parts with
  | [] => ""
  | [p] => p
  | p :: rest => p ++ sep ++ join sep rest
  end.

Definition is_continuation (a : ascii) : bool :=
  let n := N_of_ascii a in ((128 <=? n) && (n <? 192))%N.

Fixpoint take_continuation (s : string) : string :=
  match s with
  | String a rest =>
      if is_continuation a then String a (take_continuation rest) else ""
  | EmptyString => ""
  end.

(** The first character of a str: its lead byte and the continuation
    bytes after it. *)
Definition first_char (s : string) : option string :=
  match s with
  | String a rest => Some (String a (take_continuation rest))
  | EmptyString => None
  end.

Definition is_ascii_char (a : ascii) : bool := (N_of_ascii a <? 128)%N.

Fixpoint is_ascii_str (s : string) : bool :=
  match s with
  | String a rest => is_ascii_char a && is_ascii_str rest
  | EmptyString => true
  end.

Definition upper_char (a : ascii) : ascii :=
  let n := N_of_ascii a in
  if ((97 <=? n) && (n <=? 122))%N then ascii_of_N (n - 32) else a.

Definition lower_char (a : ascii) : ascii :=
  let n := N_of_ascii a in
  if ((65 <=? n) && (n <=? 90))%N then ascii_of_N (n + 32) else a.

Fixpoint lower_str (s : string) : string :=
  match s with
  | String a rest => String (lower_char a) (lower_str rest)
  | EmptyString => ""
  end.

Definition ascii_capitalize (s : string) : string :=
  match s with
  | String a rest => String (upper_char a) (lower_str rest)
  | EmptyString => ""
  end.

Fixpoint is_prefix (p s : string) : bool :=
  match p, s with
  | EmptyString, _ => true
  | String a p', String b s' => if ascii_dec a b then is_prefix p' s' else false
  | String _ _, EmptyString => false
  end.

(** [p in s] *)
Fixpoint contains (s p : string) : bool :=
  is_prefix p s ||
  match s with
  | String _ s' => contains s' p
  | EmptyString => false
  end.

End StrOps.

(** ** [api.py]: the read-only view of [logs] *)
Module Api.

(** A row of [logs] as the API serves it, with the [id] and the
    [timestamp] the server gave it.  A timestamp is a point on the time
    line, in microseconds. *)
Record LogSchema : Type := {
  id : Z;
  user_id : Z;
  command : string;
  timestamp : Z;
  response : string
}.

(** [desc(Log.timestamp)]: [a] may come before [b]. *)
Definition newer_first (a b : LogSchema) : Prop := timestamp b <= timestamp a.

#[global] Instance newer_first_dec (a b : LogSchema) : Decision (newer_first a b) :=
  Z_le_dec (timestamp b) (timestamp a).

#[global] Instance newer_first_total : Total newer_first.
Proof. intros a b. unfold newer_first. lia. Qed.

#[global] Instance newer_first_trans : Transitive newer_first.
Proof. intros a b c. unfold newer_first. lia. Qed.







(** [Query(default, ge=..., le=...)] applied to the parameter as given. *)
Definition Query (default : Z) (ge le : option Z) (given : option Z) : option Z :=
  let v := match given with Some x => x | None => default end in
  if match ge with Some lo => lo <=? v | None => true end
     && match le with Some hi => v <=? hi | None => true end
  then Some v else None.









End Api.

(** ** Builtins of Python that depend on the Unicode tables

    [repr] of a str and [str.capitalize] outside ASCII need the Unicode
    character database; they are parameters of the development. *)
Section Bot.

Variable repr_str : string -> string.
Variable unicode_capitalize : string -> string.

(** [s.capitalize()]: first character upper-cased, the rest lower-cased. *)
Definition capitalize (s : string) : string :=
  if StrOps.is_ascii_str s then StrOps.ascii_capitalize s
  else unicode_capitalize s.

Fixpoint py_repr (v : pyobj) : string :=
  match v with
  | PyNone => "None"
  | PyBool true => "True"
  | PyBool false => "False"
  | PyInt z => pretty z
  | PyFloat r => r
  | PyStr s => repr_str s
  | PyList l => "[" ++ StrOps.join ", " (List.map py_repr l) ++ "]"
  | PyDict kv =>
      "{" ++ StrOps.join ", "
               (List.map (fun p => repr_str (fst p) ++ ": " ++ py_repr (snd p)) kv)
          ++ "}"
  end.

(** [str(v)], which is what an f-string field [{v}] inserts. *)
Definition py_str (v : pyobj) : string :=
  match v with
  | PyStr s => s
  | _ => py_repr v
  end.

(** Truth value of an object, as [if v] and [a and b] test it. *)
Definition truthy (v : pyobj) : bool :=
  match v with
  | PyNone => false
  | PyBool b => b
  | PyInt z => negb (z =? 0)
  | PyFloat r => negb (String.eqb r "0.0" || String.eqb r "-0.0")
  | PyStr s => negb (String.eqb s "")
  | PyList l => match l with [] => false | _ => true end
  | PyDict kv => match kv with [] => false | _ => true end
  end.

Fixpoint dict_lookup (kv : list (string * pyobj)) (k : string) : option pyobj :=
  match kv with
  | [] => None
  | (k', v) :: rest => if String.eqb k' k then Some v else dict_lookup rest k
  end.

(** [v[k]] for a str key. *)
Definition getitem (v : pyobj) (k : string) : result pyobj :=
  match v with
  | PyDict kv =>
      match dict_lookup kv k with
      | Some x => Ok x
      | None => Raise KeyError
      end
  | _ => Raise TypeError
  end.

(** [v[0]] *)
Definition getitem0 (v : pyobj) : result pyobj :=
  match v with
  | PyList l =>
      match l with
      | x :: _ => Ok x
      | [] => Raise IndexError
      end
  | PyStr s =>
      match StrOps.first_char s with
      | Some c => Ok (PyStr c)
      | None => Raise IndexError
      end
  | PyDict _ => Raise KeyError
  | _ => Raise TypeError
  end.

(** [d.get(k)] *)
Definition dict_get (v : pyobj) (k : string) : result pyobj :=
  match v with
  | PyDict kv =>
      match dict_lookup kv k with
      | Some x => Ok x
      | None => Ok PyNone
      end
  | _ => Raise AttributeError
  end.

(** Evaluation of the dict display of lines 81-88; the items are evaluated
    in the order they are written. *)
Definition build_weather (data : pyobj) : result pyobj :=
  rbind (getitem data "name") (fun name =>
  rbind (rbind (getitem data "main") (fun m => getitem m "temp")) (fun temp =>
  rbind (rbind (getitem data "main") (fun m => getitem m "feels_like")) (fun feels_like =>
  rbind (rbind (rbind (getitem data "weather") getitem0)
               (fun w0 => getitem w0 "description")) (fun description =>
  rbind (rbind (getitem data "main") (fun m => getitem m "humidity")) (fun humidity =>
  rbind (rbind (getitem data "wind") (fun w => getitem w "speed")) (fun speed =>
  Ok (PyDict [("город", name);
              ("температура", temp);
              ("ощущается как", feels_like);
              ("описание", description);
              ("влажность", humidity);
              ("скорость ветра", speed)]))))))).

(** ** The provider call

    What [client.get] can do: raise an [httpx.RequestError] (connection
    failure, the 15 s timeout), or hand back a response.  A response has
    its status code, its body text and the value [json.loads] gives for
    that text, absent when the text is not a JSON document. *)
Record Response : Type := {
  status_code : Z;
  text : string;
  json_body : option pyobj
}.

Inductive provider_outcome : Type :=
| Responded (r : Response)
| RequestFailed (detail : string).

(** [response.raise_for_status()]: passes on 2xx only. *)
Definition raise_for_status (r : Response) : result unit :=
  if (200 <=? status_code r) && (status_code r <=? 299) then Ok tt
  else Raise (HTTPStatusError (status_code r) (text r)).

(** [response.json()] *)
Definition response_json (r : Response) : result pyobj :=
  match json_body r with
  | Some data => Ok data
  | None => Raise JSONDecodeError
  end.

(** ** Tables, cache and the handler monad *)

(** A row of [logs]; [id] and [timestamp] are filled in by the server. *)
Record Log : Type := {
  user_id : Z;
  command : string;
  response : string
}.

(** What [JsonSerializer.dumps] leaves in the memory cache: the JSON
    document of a value.  Reading it back with [json.loads] gives the value
    again, for the values [response.json()] can produce. *)
Inductive serialized : Type :=
| Json (v : pyobj).

Record cache_entry : Type := {
  payload : serialized;
  expires_at : Z
}.

(** [user_settings] has [user_id] as primary key, so it is a finite map
    from user id to city.  [logs] grows at its end. *)
Record world : Type := {
  user_settings : gmap Z string;
  logs : list Log;
  cache : gmap string cache_entry
}.

(** What the outside does during one call of a handler: the clock the
    cache timers run on (seconds), whether the query on [user_settings]
    raises, what the provider does, whether [reply_text] raises and whether
    [db.commit()] raises. *)
Record env : Type := {
  now : Z;
  query_raises : bool;
  provider : provider_outcome;
  send_raises : bool;
  commit_raises : bool
}.

(** What a run does to the outside, in order: reads of [user_settings],
    reads and writes of the memory cache, requests to the provider and
    messages handed to the transport. *)
Inductive event : Type :=
| EvQuerySettings (uid : Z)
| EvCacheGet (key : string)
| EvCacheSet (key : string)
| EvHttpGet (city : string)
| EvReply (message : string).

Definition M (A : Type) : Type := env -> world -> result A * world * list event.

Definition ret {A : Type} (a : A) : M A := fun _ w => (Ok a, w, []).

Definition raise {A : Type} (e : exn) : M A := fun _ w => (Raise e, w, []).

Definition bind {A B : Type} (m : M A) (k : A -> M B) : M B :=
  fun e w =>
    match m e w with
    | (Ok a, w1, t1) =>
        match k a e w1 with
        | (r, w2, t2) => (r, w2, (t1 ++ t2)%list)
        end
    | (Raise x, w1, t1) => (Raise x, w1, t1)
    end.

(** [try: m  except ...: h] *)
Definition try_except {A : Type} (m : M A) (h : exn -> M A) : M A :=
  fun e w =>
    match m e w with
    | (Ok a, w1, t1) => (Ok a, w1, t1)
    | (Raise x, w1, t1) =>
        match h x e w1 with
        | (r, w2, t2) => (r, w2, (t1 ++ t2)%list)
        end
    end.

Definition lift {A : Type} (r : result A) : M A := fun _ w => (r, w, []).

Definition ask : M env := fun e w => (Ok e, w, []).

Definition get_world : M world := fun _ w => (Ok w, w, []).

Definition put_world (w : world) : M unit := fun _ _ => (Ok tt, w, []).

Definition emit (ev : event) : M unit := fun _ w => (Ok tt, w, [ev]).

Notation "'let*' x ':=' m 'in' k" := (bind m (fun x => k))
  (at level 10, x name, m at level 100, k at level 200).
Notation "'do' m 'then' k" := (bind m (fun _ => k))
  (at level 10, m at level 100, k at level 200).

(** ** [get_weather], lines 66-99 *)

(** [await client.get(WEATHER_URL, params=params)], with [q] the city. *)
Definition client_get (city : string) : M Response :=
  do emit (EvHttpGet city) then
  let* e := ask in
  match provider e with
  | Responded r => ret r
  | RequestFailed detail => raise (RequestError detail)
  end.

(** The function under the decorator: the [try] of lines 77-90 and its
    three [except] clauses. *)
Definition get_weather_body (city : string) : M pyobj :=
  try_except
    (let* response := client_get city in
     do lift (raise_for_status response) then
     let* data := lift (response_json response) in
     let* weather := lift (build_weather data) in
     ret weather)
    (fun x =>
       if isinstance x cls_HTTPStatusError then ret PyNone
       else if isinstance x cls_RequestError then ret PyNone
       else if isinstance x cls_Exception then ret PyNone
       else raise x).

(** *** [aiocache]: [SimpleMemoryCache] with [JsonSerializer]

    [set] stores the document under the key and starts a timer that
    deletes the key [ttl] seconds later; an entry is therefore seen by
    [get] exactly while the clock is before [expires_at]. *)

Definition dumps (v : pyobj) : serialized := Json v.

(** [JsonSerializer.loads]: [None] for a missing key, else the decoded
    document. *)
Definition loads (s : option serialized) : pyobj :=
  match s with
  | Some (Json v) => v
  | None => PyNone
  end.

(** The document [get] finds under [key] when the clock shows [t]. *)
Definition live_payload (t : Z) (c : gmap string cache_entry) (key : string)
  : option serialized :=
  match c !! key with
  | Some entry => if t <? expires_at entry then Some (payload entry) else None
  | None => None
  end.

Definition with_cache (w : world) (c : gmap string cache_entry) : world :=
  {| user_settings := user_settings w; logs := logs w; cache := c |}.

Definition with_logs (w : world) (l : list Log) : world :=
  {| user_settings := user_settings w; logs := l; cache := cache w |}.

Definition with_settings (w : world) (s : gmap Z string) : world :=
  {| user_settings := s; logs := logs w; cache := cache w |}.

Definition memory_get (key : string) : M (option serialized) :=
  do emit (EvCacheGet key) then
  let* e := ask in
  let* w := get_world in
  ret (live_payload (now e) (cache w) key).

Definition memory_set (key : string) (value : serialized) (ttl : Z) : M unit :=
  do emit (EvCacheSet key) then
  let* e := ask in
  let* w := get_world in
  put_world (with_cache w (<[key := {| payload := value;
                                       expires_at := now e + ttl |}]> (cache w))).

Definition cache_get (key : string) : M pyobj :=
  let* raw := memory_get key in ret (loads raw).

Definition cache_set (key : string) (value : pyobj) (ttl : Z) : M unit :=
  memory_set key (dumps value) ttl.

(** The default key of the decorator: module name, function name, [str]
    of the positional arguments and [str] of the sorted keyword
    arguments. *)
Definition cache_key (city : string) : string :=
  "__main__" ++ "get_weather" ++ ("(" ++ repr_str city ++ ",)") ++ "[]".

Definition is_None (v : pyobj) : bool :=
  match v with
  | PyNone => true
  | _ => false
  end.

(** [cached(ttl=...)] around [f]: a value read from the cache is returned
    when it [is not None]; otherwise [f] runs and whatever it returns is
    written to the cache. *)
Definition cached (ttl : Z) (f : string -> M pyobj) (city : string) : M pyobj :=
  let key := cache_key city in
  let* value := cache_get key in
  if negb (is_None value) then ret value
  else
    let* result := f city in
    do cache_set key result ttl then
    ret result.

Definition get_weather : string -> M pyobj := cached 600 get_weather_body.

(** ** The command handlers *)

Definition nl : string := String "010"%char "".

Definition settings_error_message : string :=
  "Произошла ошибка при получении настроек. Пожалуйста, попробуйте позже.".

Definition prompt_message : string :=
  "❓ Укажите город." ++ nl ++ "Пример: /weather Москва".

Definition failure_message : string :=
  "❌ Не удалось получить данные о погоде. Проверьте название города.".

Definition setcity_prompt_message : string :=
  "❓ Пожалуйста, укажите город." ++ nl ++ "Пример: /setcity Москва".

Definition setcity_error_message : string :=
  "❌ Произошла ошибка при установке города. Пожалуйста, попробуйте позже.".

Definition setcity_done_prefix : string :=
  "✅ Город установлен на ".

Definition getcity_prefix : string :=
  "📍 Ваш установленный город: ".

Definition getcity_unset_message : string :=
  "❌ Город не установлен. Используйте /setcity <город> для установки.".

Definition getcity_error_message : string :=
  "❌ Произошла ошибка при получении настроек. Пожалуйста, попробуйте позже.".

(** [v.capitalize()]; only a str has the method. *)
Definition str_capitalize (v : pyobj) : result string :=
  match v with
  | PyStr s => Ok (capitalize s)
  | _ => Raise AttributeError
  end.

(** The f-string of lines 136-144. *)
Definition format_weather (weather : pyobj) : result string :=
  rbind (getitem weather "город") (fun city =>
  rbind (getitem weather "температура") (fun temp =>
  rbind (getitem weather "ощущается как") (fun feels_like =>
  rbind (rbind (getitem weather "описание") str_capitalize) (fun description =>
  rbind (getitem weather "влажность") (fun humidity =>
  rbind (getitem weather "скорость ветра") (fun speed =>
  Ok ("🌤 *Погода в " ++ py_str city ++ "*" ++ nl
      ++ "🌡 *Температура:* " ++ py_str temp ++ "°C" ++ nl
      ++ "🌡 *Ощущается как:* " ++ py_str feels_like ++ "°C" ++ nl
      ++ "☁️ *Описание:* " ++ description ++ nl
      ++ "💧 *Влажность:* " ++ py_str humidity ++ "%" ++ nl
      ++ "💨 *Скорость ветра:* " ++ py_str speed ++ " м/с" ++ nl ++ nl
      ++ "🔹 *Бот создан в качестве теста для компании BobrAi.*"))))))).

(** Lines 135-146: the reply for what [get_weather] returned. *)
Definition weather_message (weather : pyobj) : result string :=
  if truthy weather then
    rbind (dict_get weather "город") (fun name =>
    if truthy name then format_weather weather else Ok failure_message)
  else Ok failure_message.

(** [update.effective_user.id] and [update.message.text] *)
Record Update : Type := {
  effective_user_id : Z;
  message_text : string
}.

(** [db.query(UserSetting).filter(UserSetting.user_id == user_id).first()],
    giving the city of the row found. *)
Definition query_user_setting (uid : Z) : M (option string) :=
  do emit (EvQuerySettings uid) then
  let* e := ask in
  if query_raises e then raise SQLAlchemyError
  else let* w := get_world in ret (user_settings w !! uid).

(** [await update.message.reply_text(message)] *)
Definition reply_text (message : string) : M unit :=
  do emit (EvReply message) then
  let* e := ask in
  if send_raises e then raise TelegramError else ret tt.

(** [db.add(log_entry); db.commit()] *)
Definition add_log (entry : Log) : M unit :=
  let* e := ask in
  if commit_raises e then raise SQLAlchemyError
  else
    let* w := get_world in
    put_world (with_logs w (logs w ++ [entry])%list).

(** How a block of a handler ends: control goes on with a value, or the
    handler has executed [return]. *)
Inductive flow (A : Type) : Type :=
| Next (a : A)
| Return.
Arguments Next {A} a.
Arguments Return {A}.

(** [try: m  except Exception: h], where [h] ends in [return]. *)
Definition try_or_return {A : Type} (m : M A) (h : M unit) : M (flow A) :=
  try_except (let* a := m in ret (Next a))
             (fun x => if isinstance x cls_Exception
                       then do h then ret Return
                       else raise x).

(** Lines 119-131: the city of the request, or the prompt to send before
    returning. *)
Definition resolve_city (args : list string) (setting : option string)
  : string + string :=
  if (Z.of_nat (length args) =? 0) then
    match setting with
    | Some city => if truthy (PyStr city) then inl city
                   else inr prompt_message
    | None => inr prompt_message
    end
  else inl (StrOps.join " " args).

(** Lines 133-172: fetch, format, send, log. *)
Definition fetch_and_reply (update : Update) (city : string) : M unit :=
  let* weather := get_weather city in
  let* message := lift (weather_message weather) in
  let* sent := try_or_return (reply_text message) (ret tt) in
  match sent with
  | Return => ret tt
  | Next _ =>
      try_except
        (add_log {| user_id := effective_user_id update;
                    command := message_text update;
                    response := message |})
        (fun x => if isinstance x cls_Exception then ret tt else raise x)
  end.

Definition weather_command (update : Update) (args : list string) : M unit :=
  let uid := effective_user_id update in
  let* queried :=
    try_or_return (query_user_setting uid) (reply_text settings_error_message) in
  match queried with
  | Return => ret tt
  | Next setting =>
      match resolve_city args setting with
      | inr message => reply_text message
      | inl city => fetch_and_reply update city
      end
  end.

(** Lines 184-194: the row of the user is changed, or added, and the
    session committed. *)
Definition store_city (uid : Z) (city : string) : M unit :=
  let* setting := query_user_setting uid in
  let* e := ask in
  if commit_raises e then raise SQLAlchemyError
  else
    let* w := get_world in
    put_world (with_settings w
                 match setting with
                 | Some _ => alter (fun _ => city) uid (user_settings w)
                 | None => <[uid := city]> (user_settings w)
                 end).

Definition set_city (update : Update) (args : list string) : M unit :=
  let uid := effective_user_id update in
  if (Z.of_nat (length args) =? 0) then reply_text setcity_prompt_message
  else
    let city := StrOps.join " " args in
    let* stored :=
      try_or_return (store_city uid city) (reply_text setcity_error_message) in
    match stored with
    | Return => ret tt
    | Next _ => reply_text (setcity_done_prefix ++ city)
    end.

Definition get_city (update : Update) : M unit :=
  let uid := effective_user_id update in
  let* message :=
    try_except
      (let* setting := query_user_setting uid in
       match setting with
       | Some city => ret (getcity_prefix ++ city)
       | None => ret getcity_unset_message
       end)
      (fun x => if isinstance x cls_Exception then ret getcity_error_message
                else raise x) in
  reply_text message.

(** The replies a run handed to the transport, the provider calls it made,
    its reads and writes of the cache and its reads of [user_settings]. *)
Definition replies (t : list event) : list string :=
  omap (fun ev => match ev with EvReply m => Some m | _ => None end) t.

Definition http_calls (t : list event) : list string :=
  omap (fun ev => match ev with EvHttpGet c => Some c | _ => None end) t.

Definition cache_reads (t : list event) : list string :=
  omap (fun ev => match ev with EvCacheGet k => Some k | _ => None end) t.

Definition cache_writes (t : list event) : list string :=
  omap (fun ev => match ev with EvCacheSet k => Some k | _ => None end) t.

Definition settings_queries (t : list event) : list Z :=
  omap (fun ev => match ev with EvQuerySettings u => Some u | _ => None end) t.

(** ** Reading a run *)

Definition outcome_of {A : Type} (r : result A * world * list event) : result A :=
  r.1.1.

Definition world_of {A : Type} (r : result A * world * list event) : world :=
  r.1.2.

Definition trace_of {A : Type} (r : result A * world * list event) : list event :=
  r.2.

(** The run [r] preceded by the events [t]. *)
Definition after {A : Type} (t : list event) (r : result A * world * list event)
  : result A * world * list event :=
  (outcome_of r, world_of r, (t ++ trace_of r)%list).

(** ** The provider payload as the specification describes it

    A field of a JSON document is reached through object members and the
    first element of an array; the snapshot is made of the six fields
    [name], [main.temp], [main.feels_like], [weather[0].description],
    [main.humidity] and [wind.speed]. *)
Inductive step : Type :=
| Key (k : string)
| Index0.

Fixpoint field (v : pyobj) (path : list step) : option pyobj :=
  match path with
  | [] => Some v
  | Key k :: rest =>
      match v with
      | PyDict kv =>
          match dict_lookup kv k with
          | Some x => field x rest
          | None => None
          end
      | _ => None
      end
  | Index0 :: rest =>
      match v with
      | PyList (x :: _) => field x rest
      | _ => None
      end
  end.

Definition snapshot_of_payload (data : pyobj) : option pyobj :=
  name ← field data [Key "name"];
  temp ← field data [Key "main"; Key "temp"];
  feels_like ← field data [Key "main"; Key "feels_like"];
  description ← field data [Key "weather"; Index0; Key "description"];
  humidity ← field data [Key "main"; Key "humidity"];
  speed ← field data [Key "wind"; Key "speed"];
  Some (PyDict [("город", name);
                ("температура", temp);
                ("ощущается как", feels_like);
                ("описание", description);
                ("влажность", humidity);
                ("скорость ветра", speed)]).

(** What a provider outcome is worth: the snapshot of a 2xx response whose
    body is a JSON document with the six fields, [None] for anything
    else. *)
Definition snapshot_of_outcome (o : provider_outcome) : pyobj :=
  match o with
  | Responded r =>
      if (200 <=? status_code r) && (status_code r <=? 299) then
        match json_body r with
        | Some data => default PyNone (snapshot_of_payload data)
        | None => PyNone
        end
      else PyNone
  | RequestFailed _ => PyNone
  end.

(** The exceptions an [except Exception] clause handles. *)
Definition catchable (x : exn) : Prop := isinstance x cls_Exception = true.

Definition to_option {A : Type} (r : result A) : option A :=
  match r with
  | Ok a => Some a
  | Raise _ => None
  end.

Definition with_commit_raises (e : env) (b : bool) : env :=
  {| now := now e;
     query_raises := query_raises e;
     provider := provider e;
     send_raises := send_raises e;
     commit_raises := b |}.

(** The log step of lines 158-172, after the reply [message] went out. *)
Definition logged (update : Update) (message : string) (e : env) (w : world) : world :=
  if commit_raises e then w
  else with_logs w (logs w ++ [{| user_id := effective_user_id update;
                                  command := message_text update;
                                  response := message |}])%list.

(** The database answers: neither the query nor the commit raises. *)
Definition db_ok (e : env) : bool :=
  negb (query_raises e) && negb (commit_raises e).

(** ** Sample data

    The scenario of the specification: the provider answers 200 for
    Moscow. *)
Definition quote : string := String "034"%char "".

Definition moscow_payload : pyobj :=
  PyDict [("name", PyStr "Moscow");
          ("main", PyDict [("temp", PyInt 5);
                           ("feels_like", PyInt 3);
                           ("humidity", PyInt 40)]);
          ("weather", PyList [PyDict [("description", PyStr "clear")]]);
          ("wind", PyDict [("speed", PyInt 2)])].

Definition moscow_text : string :=
  "{" ++ quote ++ "name" ++ quote ++ ": " ++ quote ++ "Moscow" ++ quote
  ++ ", " ++ quote ++ "main" ++ quote ++ ": {"
  ++ quote ++ "temp" ++ quote ++ ": 5, "
  ++ quote ++ "feels_like" ++ quote ++ ": 3, "
  ++ quote ++ "humidity" ++ quote ++ ": 40}, "
  ++ quote ++ "weather" ++ quote ++ ": [{"
  ++ quote ++ "description" ++ quote ++ ": " ++ quote ++ "clear" ++ quote ++ "}], "
  ++ quote ++ "wind" ++ quote ++ ": {" ++ quote ++ "speed" ++ quote ++ ": 2}}".

Definition moscow_response : Response :=
  {| status_code := 200; text := moscow_text; json_body := Some moscow_payload |}.

(** The reply the handler builds for that payload. *)
Definition moscow_reply : string :=
  "🌤 *Погода в Moscow*" ++ nl
  ++ "🌡 *Температура:* 5°C" ++ nl
  ++ "🌡 *Ощущается как:* 3°C" ++ nl
  ++ "☁️ *Описание:* Clear" ++ nl
  ++ "💧 *Влажность:* 40%" ++ nl
  ++ "💨 *Скорость ветра:* 2 м/с" ++ nl ++ nl
  ++ "🔹 *Бот создан в качестве теста для компании BobrAi.*".

(** An environment in which nothing but possibly the provider fails. *)
Definition calm (t : Z) (o : provider_outcome) : env :=
  {| now := t;
     query_raises := false;
     provider := o;
     send_raises := false;
     commit_raises := false |}.

Definition empty_world : world :=
  {| user_settings := ∅; logs := []; cache := ∅ |}.

(** [repr] of a str without quotes, backslashes or control characters. *)
Definition plain_repr (s : string) : string := "'" ++ s ++ "'".

(** ** [help_command], lines 50-62 *)

Definition default_first_name : string :=
  "Пользователь".

Definition help_text (user_first_name : string) : string :=
  "👋 Привет, " ++ user_first_name ++ "!" ++ nl ++ nl
  ++ "ℹ️ *Доступные команды:*" ++ nl
  ++ "/weather <город> - Получить текущую погоду в указанном городе." ++ nl
  ++ "/weather - Получить текущую погоду в вашем любимом городе." ++ nl
  ++ "/setcity <город> - Установить любимый город для постоянных запросов." ++ nl
  ++ "/getcity - Получить ваш установленный любимый город." ++ nl
  ++ "/help - Показать список доступных команд.".

(** [first_name] is [update.effective_user.first_name], which may be
    [None]. *)
Definition help_command (first_name : option string) : M unit :=
  let user_first_name :=
    match first_name with
    | Some name => if truthy (PyStr name) then name else default_first_name
    | None => default_first_name
    end in
  reply_text (help_text user_first_name).

(** ** Notions used in the further properties *)

(** No entry of the cache outlives [t + 600]. *)
Definition cache_bounded (t : Z) (c : gmap string cache_entry) : Prop :=
  forall key entry, c !! key = Some entry -> expires_at entry <= t + 600.

Definition is_str (v : pyobj) : bool :=
  match v with
  | PyStr _ => true
  | _ => false
  end.

(** The dictionary [get_weather] builds from six values. *)
Definition weather_dict (name temp feels_like description humidity speed : pyobj)
  : pyobj :=
  PyDict [("город", name);
          ("температура", temp);
          ("ощущается как", feels_like);
          ("описание", description);
          ("влажность", humidity);
          ("скорость ветра", speed)].

(** A 200 answer for Moscow whose description is JSON [null], and one
    whose name is empty. *)
Definition null_description_payload : pyobj :=
  PyDict [("name", PyStr "Moscow");
          ("main", PyDict [("temp", PyInt 5);
                           ("feels_like", PyInt 3);
                           ("humidity", PyInt 40)]);
          ("weather", PyList [PyDict [("description", PyNone)]]);
          ("wind", PyDict [("speed", PyInt 2)])].

Definition empty_name_payload : pyobj :=
  PyDict [("name", PyStr "");
          ("main", PyDict [("temp", PyInt 5);
                           ("feels_like", PyInt 3);
                           ("humidity", PyInt 40)]);
          ("weather", PyList [PyDict [("description", PyStr "clear")]]);
          ("wind", PyDict [("speed", PyInt 2)])].

Definition answered (data : pyobj) : provider_outcome :=
  Responded {| status_code := 200; text := ""; json_body := Some data |}.

(** ** Properties of [get_weather] *)

Lemma getitem_field (v : pyobj) (k : string) :
  to_option (getitem v k) = field v [Key k].
Proof.
  destruct v; simpl; try reflexivity.
  destruct (dict_lookup items k); reflexivity.
Qed.

Lemma getitem2_field (v : pyobj) (k1 k2 : string) :
  to_option (rbind (getitem v k1) (fun m => getitem m k2)) = field v [Key k1; Key k2].
Proof.
  destruct v; simpl; try reflexivity.
  destruct (dict_lookup items k1) as [m|]; simpl; [|reflexivity].
  apply getitem_field.
Qed.

Lemma getitem3_field (v : pyobj) (k1 k2 : string) :
  to_option (rbind (rbind (getitem v k1) getitem0) (fun w0 => getitem w0 k2))
  = field v [Key k1; Index0; Key k2].
Proof.
  destruct v; simpl; try reflexivity.
  destruct (dict_lookup items k1) as [m|]; simpl; [|reflexivity].
  destruct m as [| | | |s|l|kv]; simpl; try reflexivity.
  - destruct s; reflexivity.
  - destruct l as [|x l]; simpl; [reflexivity|].
    apply getitem_field.
Qed.

Lemma build_weather_snapshot (data : pyobj) :
  to_option (build_weather data) = snapshot_of_payload data.
Proof.
  unfold build_weather, snapshot_of_payload.
  rewrite <- getitem_field, <- !getitem2_field, <- getitem3_field.
  destruct (getitem data "name"); simpl; [|reflexivity].
  destruct (rbind (getitem data "main") (fun m => getitem m "temp")); simpl; [|reflexivity].
  destruct (rbind (getitem data "main") (fun m => getitem m "feels_like")); simpl; [|reflexivity].
  destruct (rbind (rbind (getitem data "weather") getitem0)
                  (fun w0 => getitem w0 "description")); simpl; [|reflexivity].
  destruct (rbind (getitem data "main") (fun m => getitem m "humidity")); simpl; [|reflexivity].
  destruct (rbind (getitem data "wind") (fun w => getitem w "speed")); simpl; reflexivity.
Qed.

Lemma getitem_catchable (v : pyobj) (k : string) (x : exn) :
  getitem v k = Raise x -> catchable x.
Proof.
  destruct v; simpl; try (intros [= <-]; reflexivity).
  destruct (dict_lookup items k); [discriminate|].
  intros [= <-]; reflexivity.
Qed.

Lemma getitem0_catchable (v : pyobj) (x : exn) :
  getitem0 v = Raise x -> catchable x.
Proof.
  destruct v as [| | | |s|l|kv]; simpl; try (intros [= <-]; reflexivity).
  - destruct s; simpl; [|discriminate]. intros [= <-]; reflexivity.
  - destruct l; [|discriminate]. intros [= <-]; reflexivity.
Qed.

Lemma rbind_catchable {A B : Type} (r : result A) (k : A -> result B) (x : exn) :
  (forall y, r = Raise y -> catchable y) ->
  (forall a y, k a = Raise y -> catchable y) ->
  rbind r k = Raise x -> catchable x.
Proof.
  intros Hr Hk. destruct r as [a|y]; simpl.
  - apply Hk.
  - intros [= <-]. apply Hr. reflexivity.
Qed.

Lemma build_weather_catchable (data : pyobj) (x : exn) :
  build_weather data = Raise x -> catchable x.
Proof.
  unfold build_weather.
  repeat first
    [ apply getitem_catchable
    | apply getitem0_catchable
    | apply rbind_catchable; [intros ?|intros ? ?; cbv beta]
    | intros ?; discriminate ].
Qed.

(** One run of the function under the decorator. *)
Lemma get_weather_body_run (city : string) (e : env) (w : world) :
  get_weather_body city e w
  = (Ok (snapshot_of_outcome (provider e)), w, [EvHttpGet city]).
Proof.
  cbv [get_weather_body try_except bind client_get emit ask lift ret raise
       snapshot_of_outcome].
  destruct (provider e) as [r|detail]; simpl; [|reflexivity].
  unfold raise_for_status, response_json.
  destruct ((200 <=? status_code r) && (status_code r <=? 299)); simpl;
    [|reflexivity].
  destruct (json_body r) as [data|]; simpl; [|reflexivity].
  pose proof (build_weather_snapshot data) as Hs.
  pose proof (build_weather_catchable data) as Hc.
  destruct (build_weather data) as [weather|x]; simpl in *.
  - rewrite <- Hs. reflexivity.
  - rewrite <- Hs. simpl.
    specialize (Hc x eq_refl). unfold catchable in Hc.
    destruct x; solve [reflexivity | discriminate Hc].
Qed.

Lemma cache_get_run (key : string) (e : env) (w : world) :
  cache_get key e w
  = (Ok (loads (live_payload (now e) (cache w) key)), w, [EvCacheGet key]).
Proof. reflexivity. Qed.

Lemma with_cache_same (w : world) : with_cache w (cache w) = w.
Proof. destruct w; reflexivity. Qed.

(** A call that finds nothing usable in the cache. *)
Lemma get_weather_miss (city : string) (e : env) (w : world) :
  loads (live_payload (now e) (cache w) (cache_key city)) = PyNone ->
  get_weather city e w
  = (Ok (snapshot_of_outcome (provider e)),
     with_cache w (<[cache_key city :=
                       {| payload := dumps (snapshot_of_outcome (provider e));
                          expires_at := now e + 600 |}]> (cache w)),
     [EvCacheGet (cache_key city); EvHttpGet city; EvCacheSet (cache_key city)]).
Proof.
  intros Hmiss.
  unfold get_weather, cached, bind.
  rewrite cache_get_run, Hmiss. simpl.
  rewrite get_weather_body_run. reflexivity.
Qed.

(** A call that finds a value in the cache. *)
Lemma get_weather_hit (city : string) (e : env) (w : world) (v : pyobj) :
  live_payload (now e) (cache w) (cache_key city) = Some (Json v) ->
  v <> PyNone ->
  get_weather city e w = (Ok v, w, [EvCacheGet (cache_key city)]).
Proof.
  intros Hlive Hv.
  unfold get_weather, cached, bind.
  rewrite cache_get_run, Hlive. simpl.
  destruct v; try reflexivity. contradiction.
Qed.

Lemma live_payload_insert (t t' : Z) (c : gmap string cache_entry)
    (key : string) (p : serialized) :
  live_payload t (<[key := {| payload := p; expires_at := t' |}]> c) key
  = if t <? t' then Some p else None.
Proof.
  unfold live_payload. rewrite lookup_insert_eq. reflexivity.
Qed.

Lemma snapshot_of_payload_dict (data v : pyobj) :
  snapshot_of_payload data = Some v -> v <> PyNone.
Proof.
  unfold snapshot_of_payload.
  repeat match goal with
         | |- context [field ?d ?p] => generalize (field d p); intros [?|]
         end; cbn; congruence.
Qed.

(** Whatever the cache holds, [get_weather] returns, and touches nothing
    but the cache. *)
Lemma get_weather_cases (city : string) (e : env) (w : world) :
  (exists v, v <> PyNone
             /\ get_weather city e w = (Ok v, w, [EvCacheGet (cache_key city)]))
  \/ get_weather city e w
     = (Ok (snapshot_of_outcome (provider e)),
        with_cache w (<[cache_key city :=
                          {| payload := dumps (snapshot_of_outcome (provider e));
                             expires_at := now e + 600 |}]> (cache w)),
        [EvCacheGet (cache_key city); EvHttpGet city;
         EvCacheSet (cache_key city)]).
Proof.
  destruct (loads (live_payload (now e) (cache w) (cache_key city))) eqn:Hv;
    try (right; apply get_weather_miss; exact Hv);
    left;
    destruct (live_payload (now e) (cache w) (cache_key city)) as [[v]|] eqn:Hl;
    simpl in Hv; try discriminate Hv; subst v;
    eexists; (split; [|apply get_weather_hit; [exact Hl|]]); discriminate.
Qed.

(** [get_weather] looks at the clock and at the provider only. *)
Lemma get_weather_env (city : string) (e e' : env) (w : world) :
  now e = now e' -> provider e = provider e' ->
  get_weather city e w = get_weather city e' w.
Proof.
  intros Hn Hp.
  unfold get_weather, cached, bind.
  rewrite !cache_get_run, Hn.
  destruct (negb (is_None (loads (live_payload (now e') (cache w) (cache_key city)))));
    [reflexivity|].
  rewrite !get_weather_body_run, Hp.
  cbv [cache_set memory_set bind ask get_world put_world ret].
  rewrite Hn. reflexivity.
Qed.

(** ** Runs of the handlers *)

Lemma reply_text_run (message : string) (e : env) (w : world) :
  reply_text message e w
  = (if send_raises e then Raise TelegramError else Ok tt, w, [EvReply message]).
Proof.
  cbv [reply_text bind emit ask raise ret].
  destruct (send_raises e); reflexivity.
Qed.

Lemma fetch_and_reply_run (update : Update) (city : string) (e : env) (w : world) :
  fetch_and_reply update city e w
  = match get_weather city e w with
    | (Ok weather, w1, t1) =>
        match weather_message weather with
        | Ok message =>
            (Ok tt,
             if send_raises e then w1 else logged update message e w1,
             (t1 ++ [EvReply message])%list)
        | Raise x => (Raise x, w1, t1)
        end
    | (Raise x, w1, t1) => (Raise x, w1, t1)
    end.
Proof.
  cbv [fetch_and_reply bind lift try_or_return try_except reply_text emit ask
       raise ret add_log get_world put_world logged].
  destruct (get_weather city e w) as [[[weather|x] w1] t1]; [|reflexivity].
  destruct (weather_message weather) as [message|x];
    [|rewrite app_nil_r; reflexivity].
  destruct (send_raises e); simpl; [reflexivity|].
  destruct (commit_raises e); simpl; rewrite ?app_nil_r; reflexivity.
Qed.

Lemma weather_command_run (update : Update) (args : list string) (e : env) (w : world) :
  weather_command update args e w
  = after [EvQuerySettings (effective_user_id update)]
      (if query_raises e then reply_text settings_error_message e w
       else
         match args with
         | _ :: _ => fetch_and_reply update (StrOps.join " " args) e w
         | [] =>
             match user_settings w !! effective_user_id update with
             | Some city =>
                 if String.eqb city "" then reply_text prompt_message e w
                 else fetch_and_reply update city e w
             | None => reply_text prompt_message e w
             end
         end).
Proof.
  unfold weather_command, try_or_return, try_except, bind at 1.
  unfold query_user_setting.
  cbv [bind emit ask raise ret get_world] .
  destruct (query_raises e); simpl.
  - rewrite reply_text_run. destruct (send_raises e); reflexivity.
  - unfold resolve_city.
    destruct args as [|a args]; simpl.
    + destruct (user_settings w !! effective_user_id update) as [city|]; simpl.
      * destruct (String.eqb city ""); simpl.
        -- rewrite reply_text_run. reflexivity.
        -- destruct (fetch_and_reply update city e w) as [[r w2] t2]. reflexivity.
      * rewrite reply_text_run. reflexivity.
    + destruct (fetch_and_reply update _ e w) as [[r w2] t2]. reflexivity.
Qed.

(** ** The claims about [get_weather] *)

(** C10.  Whatever the provider does (a non-2xx status, a network error or
    timeout, a body that is not JSON, a 2xx payload lacking one of [name],
    [main.temp], [main.feels_like], [weather[0].description],
    [main.humidity], [wind.speed]), the function under the decorator
    returns: the mapped dictionary for a well-formed success and [None]
    otherwise, after exactly one request and without touching the stores.
    The decorated [get_weather] returns as well; no exception reaches the
    caller. *)
Theorem get_weather_returns (city : string) (e : env) (w : world) :
  get_weather_body city e w
  = (Ok (snapshot_of_outcome (provider e)), w, [EvHttpGet city])
  /\ exists v, outcome_of (get_weather city e w) = Ok v.
Proof.
  split; [apply get_weather_body_run|].
  destruct (get_weather_cases city e w) as [(v & _ & ->)| ->];
    eexists; reflexivity.
Qed.

(** C1, amended.  When the cache holds nothing usable for the city,
    [get_weather] calls the provider exactly once and writes what the call
    gave to the cache with a lifetime of 600 s, a failure included: a
    failed fetch leaves a null document under the key.  A null document is
    read as a miss, so the next call for the same city, whenever it comes,
    calls the provider again. *)
Theorem get_weather_on_miss (city : string) (e : env) (w : world) :
  is_None (loads (live_payload (now e) (cache w) (cache_key city))) = true ->
  let v := snapshot_of_outcome (provider e) in
  let r := get_weather city e w in
  http_calls (trace_of r) = [city]
  /\ outcome_of r = Ok v
  /\ cache_writes (trace_of r) = [cache_key city]
  /\ cache (world_of r)
     = <[cache_key city := {| payload := dumps v; expires_at := now e + 600 |}]>
         (cache w)
  /\ (v = PyNone ->
      forall e', http_calls (trace_of (get_weather city e' (world_of r))) = [city]).
Proof.
  intros Hmiss v r.
  assert (Hnone : loads (live_payload (now e) (cache w) (cache_key city)) = PyNone).
  { destruct (loads _); try discriminate Hmiss; reflexivity. }
  subst r. rewrite (get_weather_miss _ _ _ Hnone). fold v.
  repeat split.
  intros Hv e'. rewrite Hv.
  rewrite get_weather_miss; [reflexivity|].
  simpl. rewrite live_payload_insert.
  destruct (now e' <? now e + 600); reflexivity.
Qed.

(** C2.  After a call that missed and whose fetch succeeded (an insertion
    at the time of that call), a second call for the same city less than
    600 s later returns the stored snapshot, makes no provider call and
    leaves the stores as they are, so the two calls made one provider call
    together; a call 600 s or more after the insertion calls the provider
    again. *)
Theorem get_weather_ttl (city : string) (e1 e2 e3 : env) (w : world) :
  is_None (loads (live_payload (now e1) (cache w) (cache_key city))) = true ->
  is_None (snapshot_of_outcome (provider e1)) = false ->
  now e2 < now e1 + 600 ->
  now e1 + 600 <= now e3 ->
  let r1 := get_weather city e1 w in
  let r2 := get_weather city e2 (world_of r1) in
  let r3 := get_weather city e3 (world_of r2) in
  r2 = (Ok (snapshot_of_outcome (provider e1)), world_of r1,
        [EvCacheGet (cache_key city)])
  /\ http_calls (trace_of r1 ++ trace_of r2) = [city]
  /\ http_calls (trace_of r3) = [city].
Proof.
  intros Hmiss Hok H2 H3 r1 r2 r3.
  assert (Hnone : loads (live_payload (now e1) (cache w) (cache_key city)) = PyNone).
  { destruct (loads _); try discriminate Hmiss; reflexivity. }
  assert (Hr2 : r2 = (Ok (snapshot_of_outcome (provider e1)), world_of r1,
                      [EvCacheGet (cache_key city)])).
  { subst r2 r1. rewrite (get_weather_miss _ _ _ Hnone). simpl.
    apply get_weather_hit.
    - simpl. rewrite live_payload_insert.
      apply Z.ltb_lt in H2. rewrite H2. reflexivity.
    - intros Hv. rewrite Hv in Hok. discriminate Hok. }
  split; [exact Hr2|].
  subst r3. rewrite Hr2. simpl. subst r1.
  rewrite (get_weather_miss _ _ _ Hnone). simpl.
  split; [reflexivity|].
  rewrite get_weather_miss; [reflexivity|].
  simpl. rewrite live_payload_insert.
  apply Z.ltb_ge in H3. rewrite H3. reflexivity.
Qed.

(** ** Runs of [/setcity] and [/getcity] *)

Lemma alter_present (m : gmap Z string) (uid : Z) (old city : string) :
  m !! uid = Some old -> alter (fun _ => city) uid m = <[uid := city]> m.
Proof.
  intros H. apply map_eq. intros i.
  destruct (decide (uid = i)) as [->|Hne].
  - rewrite lookup_alter_eq, lookup_insert_eq, H. reflexivity.
  - rewrite lookup_alter_ne, lookup_insert_ne by exact Hne. reflexivity.
Qed.

Lemma db_ok_true (e : env) :
  db_ok e = true -> query_raises e = false /\ commit_raises e = false.
Proof.
  unfold db_ok. destruct (query_raises e), (commit_raises e); simpl; intuition congruence.
Qed.

Lemma store_city_run (uid : Z) (city : string) (e : env) (w : world) :
  db_ok e = true ->
  store_city uid city e w
  = (Ok tt, with_settings w (<[uid := city]> (user_settings w)),
     [EvQuerySettings uid]).
Proof.
  intros [Hq Hc]%db_ok_true.
  cbv [store_city query_user_setting bind emit ask raise ret get_world put_world].
  rewrite Hq, Hc. simpl.
  destruct (user_settings w !! uid) as [old|] eqn:Hl; [|reflexivity].
  rewrite (alter_present _ _ _ _ Hl). reflexivity.
Qed.

Lemma set_city_run (update : Update) (args : list string) (e : env) (w : world) :
  (0 < length args)%nat ->
  db_ok e = true ->
  set_city update args e w
  = (if send_raises e then Raise TelegramError else Ok tt,
     with_settings w (<[effective_user_id update := StrOps.join " " args]>
                        (user_settings w)),
     [EvQuerySettings (effective_user_id update);
      EvReply (setcity_done_prefix ++ StrOps.join " " args)]).
Proof.
  intros Hargs Hdb.
  unfold set_city.
  destruct args as [|a args]; [simpl in Hargs; lia|].
  replace (Z.of_nat (length (a :: args)) =? 0) with false
    by (symmetry; apply Z.eqb_neq; simpl length; lia).
  unfold try_or_return, try_except, bind.
  rewrite (store_city_run _ _ _ _ Hdb). simpl.
  rewrite reply_text_run. reflexivity.
Qed.

Lemma get_city_run (update : Update) (e : env) (w : world) :
  query_raises e = false ->
  get_city update e w
  = (if send_raises e then Raise TelegramError else Ok tt, w,
     [EvQuerySettings (effective_user_id update);
      EvReply match user_settings w !! effective_user_id update with
              | Some city => getcity_prefix ++ city
              | None => getcity_unset_message
              end]).
Proof.
  intros Hq.
  cbv [get_city query_user_setting try_except bind emit ask raise ret get_world].
  rewrite Hq. simpl.
  destruct (user_settings w !! effective_user_id update); simpl;
    rewrite reply_text_run; reflexivity.
Qed.

(** ** Shape of the weather path *)

Lemma get_weather_shape (city : string) (e : env) (w : world) :
  exists weather c t1,
    get_weather city e w = (Ok weather, with_cache w c, t1)
    /\ (t1 = [EvCacheGet (cache_key city)]
        \/ (t1 = [EvCacheGet (cache_key city); EvHttpGet city;
                  EvCacheSet (cache_key city)]
            /\ weather = snapshot_of_outcome (provider e))).
Proof.
  destruct (get_weather_cases city e w) as [(v & _ & ->)| ->].
  - exists v, (cache w), [EvCacheGet (cache_key city)].
    rewrite with_cache_same. auto.
  - eexists _, _, _. split; [reflexivity|]. right. auto.
Qed.

Lemma moscow_message :
  weather_message (snapshot_of_outcome (Responded moscow_response)) = Ok moscow_reply.
Proof. vm_compute. reflexivity. Qed.

Lemma moscow_run (uid t : Z) (text : string) (settings : gmap Z string) (l : list Log) :
  weather_command {| effective_user_id := uid; message_text := text |}
    ["Moscow"] (calm t (Responded moscow_response))
    {| user_settings := settings; logs := l; cache := ∅ |}
  = (Ok tt,
     {| user_settings := settings;
        logs := (l ++ [{| user_id := uid; command := text; response := moscow_reply |}])%list;
        cache := <[cache_key "Moscow" :=
                     {| payload := dumps (snapshot_of_outcome (Responded moscow_response));
                        expires_at := t + 600 |}]> ∅ |},
     [EvQuerySettings uid; EvCacheGet (cache_key "Moscow"); EvHttpGet "Moscow";
      EvCacheSet (cache_key "Moscow"); EvReply moscow_reply]).
Proof.
  rewrite weather_command_run. simpl.
  rewrite fetch_and_reply_run.
  rewrite get_weather_miss by reflexivity.
  cbn [provider calm].
  rewrite moscow_message. reflexivity.
Qed.

Lemma fetch_and_reply_no_query (update : Update) (city : string) (e : env) (w : world) :
  settings_queries (trace_of (fetch_and_reply update city e w)) = [].
Proof.
  rewrite fetch_and_reply_run.
  destruct (get_weather_shape city e w) as (weather & c & t1 & -> & Ht).
  destruct (weather_message weather) as [message|x];
    destruct Ht as [->|[-> _]]; reflexivity.
Qed.

(** ** The claims about the handlers *)

(** C3, amended.  [/weather] reads the Preference Store for the user
    first, whatever the arguments are, exactly once.  If that read raises,
    the handler sends the settings error and stops.  Otherwise the city is
    [' '.join(args)] when there are arguments; with no arguments it is the
    stored city when there is one and it is not empty, and without one the
    handler sends the prompt and stops. *)
Theorem weather_command_resolves (update : Update) (args : list string)
    (e : env) (w : world) :
  let uid := effective_user_id update in
  let r := weather_command update args e w in
  settings_queries (trace_of r) = [uid]
  /\ r = after [EvQuerySettings uid]
           (if query_raises e then reply_text settings_error_message e w
            else
              match args with
              | _ :: _ => fetch_and_reply update (StrOps.join " " args) e w
              | [] =>
                  match user_settings w !! uid with
                  | Some city =>
                      if String.eqb city "" then reply_text prompt_message e w
                      else fetch_and_reply update city e w
                  | None => reply_text prompt_message e w
                  end
              end).
Proof.
  intros uid r. split; [|apply weather_command_run].
  subst r uid. rewrite weather_command_run.
  unfold after, trace_of at 1. cbn [snd].
  change (settings_queries ([EvQuerySettings (effective_user_id update)] ++ ?t))
    with (effective_user_id update :: settings_queries t).
  f_equal.
  destruct (query_raises e); [rewrite reply_text_run; reflexivity|].
  destruct args as [|a args].
  - destruct (user_settings w !! effective_user_id update) as [city|].
    + destruct (String.eqb city "").
      * rewrite reply_text_run; reflexivity.
      * apply fetch_and_reply_no_query.
    + rewrite reply_text_run; reflexivity.
  - apply fetch_and_reply_no_query.
Qed.

(** C4.  When the store can be read and holds no city for the user,
    [/weather] without arguments hands the prompt to the transport and
    does nothing else: [get_weather] is not called (every call of it
    starts with a read of the cache, and there is none), no request goes to
    the provider, and neither the cache nor a table changes. *)
Theorem weather_without_city_prompts (update : Update) (e : env) (w : world) :
  query_raises e = false ->
  user_settings w !! effective_user_id update = None ->
  let r := weather_command update [] e w in
  replies (trace_of r) = [prompt_message]
  /\ cache_reads (trace_of r) = []
  /\ http_calls (trace_of r) = []
  /\ world_of r = w.
Proof.
  intros Hq Hnone r. subst r.
  rewrite weather_command_run, Hq, Hnone, reply_text_run.
  repeat split.
Qed.

(** C5.  With the database answering: after [/setcity a], [/getcity]
    reports [a]; after [/setcity a] and then [/setcity b] the user's row
    holds [b], the rows of other users are as before, and [/getcity]
    reports [b]; repeating [/setcity a] changes nothing. *)
Theorem set_city_then_get_city (update : Update) (args_a args_b : list string)
    (e1 e2 e3 : env) (w : world) :
  (0 < length args_a)%nat ->
  (0 < length args_b)%nat ->
  db_ok e1 = true -> db_ok e2 = true -> db_ok e3 = true ->
  let uid := effective_user_id update in
  let a := StrOps.join " " args_a in
  let b := StrOps.join " " args_b in
  let w1 := world_of (set_city update args_a e1 w) in
  let w2 := world_of (set_city update args_b e2 w1) in
  user_settings w1 = <[uid := a]> (user_settings w)
  /\ replies (trace_of (get_city update e3 w1)) = [getcity_prefix ++ a]
  /\ user_settings w2 = <[uid := b]> (user_settings w)
  /\ replies (trace_of (get_city update e3 w2)) = [getcity_prefix ++ b]
  /\ world_of (set_city update args_a e2 w1) = w1.
Proof.
  intros Ha Hb H1 H2 H3 uid a b w1 w2.
  destruct (db_ok_true _ H3) as [Hq3 _].
  assert (Hw1 : w1 = with_settings w (<[uid := a]> (user_settings w))).
  { subst w1. rewrite (set_city_run _ _ _ _ Ha H1). reflexivity. }
  assert (Hw2 : w2 = with_settings w (<[uid := b]> (user_settings w))).
  { subst w2. rewrite (set_city_run _ _ _ _ Hb H2), Hw1. simpl.
    unfold with_settings. simpl. fold uid. fold b.
    rewrite insert_insert_eq. reflexivity. }
  split; [rewrite Hw1; reflexivity|].
  split.
  { rewrite (get_city_run _ _ _ Hq3), Hw1. simpl. fold uid.
    rewrite lookup_insert_eq. reflexivity. }
  split; [rewrite Hw2; reflexivity|].
  split.
  { rewrite (get_city_run _ _ _ Hq3), Hw2. simpl. fold uid.
    rewrite lookup_insert_eq. reflexivity. }
  rewrite (set_city_run _ _ _ _ Ha H2), Hw1. simpl.
  unfold with_settings. simpl. fold uid. fold a.
  rewrite insert_insert_eq. reflexivity.
Qed.

(** C6.  When [/weather] called the provider and the call failed
    (rejection, network failure, unusable body), the one reply handed to
    the transport is the fixed failure message, whatever the provider
    said, and the row added to [logs], if one is added, carries that same
    message. *)
Theorem failed_fetch_reply (update : Update) (args : list string)
    (e : env) (w : world) :
  http_calls (trace_of (weather_command update args e w)) <> [] ->
  is_None (snapshot_of_outcome (provider e)) = true ->
  let r := weather_command update args e w in
  replies (trace_of r) = [failure_message]
  /\ logs (world_of r)
     = if send_raises e || commit_raises e then logs w
       else (logs w ++ [{| user_id := effective_user_id update;
                           command := message_text update;
                           response := failure_message |}])%list.
Proof.
  intros Hcall Hfail r. subst r.
  rewrite weather_command_run in *.
  assert (Hpath : forall city,
    http_calls (trace_of (after [EvQuerySettings (effective_user_id update)]
                            (fetch_and_reply update city e w))) <> [] ->
    let r := after [EvQuerySettings (effective_user_id update)]
               (fetch_and_reply update city e w) in
    replies (trace_of r) = [failure_message]
    /\ logs (world_of r)
       = if send_raises e || commit_raises e then logs w
         else (logs w ++ [{| user_id := effective_user_id update;
                             command := message_text update;
                             response := failure_message |}])%list).
  { intros city. rewrite fetch_and_reply_run.
    destruct (get_weather_shape city e w) as (weather & c & t1 & -> & Ht).
    destruct Ht as [->|[-> ->]].
    - destruct (weather_message weather); intros H; exfalso; apply H; reflexivity.
    - destruct (snapshot_of_outcome (provider e)); try discriminate Hfail.
      intros _. cbn [weather_message truthy].
      unfold after, logged; simpl.
      split; [reflexivity|].
      destruct (send_raises e), (commit_raises e); reflexivity. }
  destruct (query_raises e).
  { rewrite reply_text_run in Hcall. exfalso; apply Hcall; reflexivity. }
  destruct args as [|a args].
  - destruct (user_settings w !! effective_user_id update) as [city|].
    + destruct (String.eqb city "").
      * rewrite reply_text_run in Hcall. exfalso; apply Hcall; reflexivity.
      * apply Hpath, Hcall.
    + rewrite reply_text_run in Hcall. exfalso; apply Hcall; reflexivity.
  - apply Hpath, Hcall.
Qed.

(** C7.  When the transport raises on the reply, [/weather] adds no row
    to [logs]. *)
Theorem send_failure_skips_log (update : Update) (args : list string)
    (e : env) (w : world) :
  send_raises e = true ->
  logs (world_of (weather_command update args e w)) = logs w.
Proof.
  intros Hsend.
  rewrite weather_command_run.
  assert (Hpath : forall city,
    logs (world_of (after [EvQuerySettings (effective_user_id update)]
                      (fetch_and_reply update city e w))) = logs w).
  { intros city. rewrite fetch_and_reply_run.
    destruct (get_weather_shape city e w) as (weather & c & t1 & -> & _).
    destruct (weather_message weather); rewrite ?Hsend; reflexivity. }
  destruct (query_raises e); [rewrite reply_text_run; reflexivity|].
  destruct args as [|a args]; [|apply Hpath].
  destruct (user_settings w !! effective_user_id update) as [city|];
    [|rewrite reply_text_run; reflexivity].
  destruct (String.eqb city ""); [rewrite reply_text_run; reflexivity|].
  apply Hpath.
Qed.

(** C8.  When the reply goes out and the commit of the log row raises,
    [/weather] behaves towards the transport exactly as when the commit
    succeeds: the same events, in particular the same reply, and the same
    outcome; a handler that sent a reply ends normally; [logs] is left as
    it was. *)
Theorem log_failure_is_silent (update : Update) (args : list string)
    (e : env) (w : world) :
  send_raises e = false ->
  commit_raises e = true ->
  let r := weather_command update args e w in
  let r' := weather_command update args (with_commit_raises e false) w in
  trace_of r = trace_of r'
  /\ outcome_of r = outcome_of r'
  /\ (replies (trace_of r) <> [] -> outcome_of r = Ok tt)
  /\ logs (world_of r) = logs w.
Proof.
  intros Hsend Hcommit r r'. subst r r'.
  rewrite !weather_command_run.
  cbn [with_commit_raises query_raises].
  assert (Hpath : forall city,
    let r := after [EvQuerySettings (effective_user_id update)]
               (fetch_and_reply update city e w) in
    let r' := after [EvQuerySettings (effective_user_id update)]
                (fetch_and_reply update city (with_commit_raises e false) w) in
    trace_of r = trace_of r'
    /\ outcome_of r = outcome_of r'
    /\ (replies (trace_of r) <> [] -> outcome_of r = Ok tt)
    /\ logs (world_of r) = logs w).
  { intros city. rewrite !fetch_and_reply_run.
    rewrite (get_weather_env city (with_commit_raises e false) e w)
      by reflexivity.
    destruct (get_weather_shape city e w) as (weather & c & t1 & -> & Ht).
    destruct (weather_message weather) as [message|x].
    - cbn [with_commit_raises send_raises]. rewrite Hsend.
      unfold logged. rewrite Hcommit. repeat split.
    - repeat split.
      destruct Ht as [->|[-> _]]; intros H; exfalso; apply H; reflexivity. }
  assert (Hreply : forall message,
    let r := after [EvQuerySettings (effective_user_id update)]
               (reply_text message e w) in
    let r' := after [EvQuerySettings (effective_user_id update)]
                (reply_text message (with_commit_raises e false) w) in
    trace_of r = trace_of r'
    /\ outcome_of r = outcome_of r'
    /\ (replies (trace_of r) <> [] -> outcome_of r = Ok tt)
    /\ logs (world_of r) = logs w).
  { intros message. rewrite !reply_text_run.
    cbn [with_commit_raises send_raises]. rewrite Hsend. repeat split. }
  destruct (query_raises e); [apply Hreply|].
  destruct args as [|a args]; [|apply Hpath].
  destruct (user_settings w !! effective_user_id update) as [city|];
    [|apply Hreply].
  destruct (String.eqb city ""); [apply Hreply|apply Hpath].
Qed.

(** C9, amended.  For [/weather Moscow] on an empty cache, with the
    provider answering 200 with name Moscow, temp 5, feels_like 3,
    description clear, humidity 40 and wind speed 2, the reply contains
    [Moscow], [5], [3], [Clear] (the description with its first letter in
    upper case), [40] and [2], and one row is added to [logs] whose
    response is that reply. *)
Theorem moscow_scenario (uid t : Z) (text : string) (settings : gmap Z string)
    (l : list Log) :
  let update := {| effective_user_id := uid; message_text := text |} in
  let w := {| user_settings := settings; logs := l; cache := ∅ |} in
  let r := weather_command update ["Moscow"] (calm t (Responded moscow_response)) w in
  replies (trace_of r) = [moscow_reply]
  /\ forallb (StrOps.contains moscow_reply) ["Moscow"; "5"; "3"; "Clear"; "40"; "2"]
     = true
  /\ logs (world_of r)
     = (l ++ [{| user_id := uid; command := text; response := moscow_reply |}])%list.
Proof.
  intros update w r. subst r update w.
  rewrite moscow_run.
  split; [reflexivity|].
  split; [vm_compute; reflexivity|reflexivity].
Qed.

(** ** Further properties of the bot *)

Lemma is_None_true (v : pyobj) : is_None v = true -> v = PyNone.
Proof. destruct v; try discriminate; reflexivity. Qed.

Lemma weather_message_dict (name temp feels_like d humidity speed : pyobj) :
  weather_message (weather_dict name temp feels_like d humidity speed)
  = if truthy name then
      match d with
      | PyStr _ => format_weather (weather_dict name temp feels_like d humidity speed)
      | _ => Raise AttributeError
      end
    else Ok failure_message.
Proof.
  unfold weather_message, weather_dict.
  cbn [truthy dict_get].
  change (dict_lookup _ "город") with (Some name).
  cbn [rbind].
  destruct (truthy name); [|reflexivity].
  destruct d; try reflexivity.
Qed.

Lemma rbind_raises {A B : Type} (P : exn -> Prop) (r : result A)
    (k : A -> result B) (x : exn) :
  (forall y, r = Raise y -> P y) ->
  (forall a y, k a = Raise y -> P y) ->
  rbind r k = Raise x -> P x.
Proof.
  intros Hr Hk. destruct r as [a|y]; simpl.
  - apply Hk.
  - intros [= <-]. apply Hr. reflexivity.
Qed.

Lemma getitem_raises (v : pyobj) (k : string) (x : exn) :
  getitem v k = Raise x -> x <> TelegramError.
Proof.
  destruct v; simpl; try (intros [= <-]; discriminate).
  destruct (dict_lookup items k); [discriminate|].
  intros [= <-]; discriminate.
Qed.

Lemma str_capitalize_raises (v : pyobj) (x : exn) :
  str_capitalize v = Raise x -> x <> TelegramError.
Proof. destruct v; simpl; intros [= <-]; discriminate. Qed.

Lemma dict_get_raises (v : pyobj) (k : string) (x : exn) :
  dict_get v k = Raise x -> x <> TelegramError.
Proof.
  destruct v; simpl; try (intros [= <-]; discriminate).
  destruct (dict_lookup items k); discriminate.
Qed.

(** Building the reply raises no exception of the transport. *)
Lemma weather_message_raises (weather : pyobj) (x : exn) :
  weather_message weather = Raise x -> x <> TelegramError.
Proof.
  unfold weather_message, format_weather.
  destruct (truthy weather); [|discriminate].
  apply (rbind_raises (fun y => y <> TelegramError));
    [intros y; apply dict_get_raises|].
  intros name y. destruct (truthy name); [|discriminate].
  repeat first
    [ apply getitem_raises
    | apply str_capitalize_raises
    | apply (rbind_raises (fun y => y <> TelegramError));
      [intros ?|intros ? ?; cbv beta]
    | intros ?; discriminate ].
Qed.

Lemma fetch_and_reply_cache (update : Update) (city : string) (e : env) (w : world) :
  cache (world_of (fetch_and_reply update city e w))
  = cache (world_of (get_weather city e w)).
Proof.
  rewrite fetch_and_reply_run.
  destruct (get_weather city e w) as [[[weather|x] w1] t1]; [|reflexivity].
  destruct (weather_message weather); [|reflexivity].
  unfold logged.
  destruct (send_raises e), (commit_raises e); reflexivity.
Qed.

Lemma cache_bounded_later (t t' : Z) (c : gmap string cache_entry) :
  t <= t' -> cache_bounded t c -> cache_bounded t' c.
Proof.
  intros Ht Hc key entry Hl. specialize (Hc key entry Hl). lia.
Qed.

Lemma get_weather_bounded (city : string) (e : env) (w : world) (t : Z) :
  t <= now e ->
  cache_bounded t (cache w) ->
  cache_bounded (now e) (cache (world_of (get_weather city e w))).
Proof.
  intros Ht Hc.
  destruct (get_weather_cases city e w) as [(v & _ & ->)| ->]; simpl.
  - apply (cache_bounded_later t); assumption.
  - intros key entry.
    destruct (decide (cache_key city = key)) as [<-|Hne].
    + rewrite lookup_insert_eq. intros [= <-]. simpl. lia.
    + rewrite lookup_insert_ne by exact Hne.
      intros Hl. specialize (Hc key entry Hl). lia.
Qed.

(** X1.  [get_weather] changes nothing but the cache entry of its own
    city: the tables are as before, and so is what the cache holds under
    every other key. *)
Theorem get_weather_touches_own_entry (city key : string) (e : env) (w : world) :
  key <> cache_key city ->
  let r := get_weather city e w in
  user_settings (world_of r) = user_settings w
  /\ logs (world_of r) = logs w
  /\ cache (world_of r) !! key = cache w !! key.
Proof.
  intros Hne r. subst r.
  destruct (get_weather_cases city e w) as [(v & _ & ->)| ->]; simpl.
  - repeat split.
  - split; [reflexivity|]. split; [reflexivity|].
    apply lookup_insert_ne. congruence.
Qed.

(** X2.  If no entry of the cache outlives [t + 600] and the clock has
    not gone back since [t], then after [/weather] no entry outlives
    [now + 600]: a read never prolongs an entry and a write gives 600 s. *)
Theorem weather_command_keeps_cache_bounded (update : Update) (args : list string)
    (e : env) (w : world) (t : Z) :
  t <= now e ->
  cache_bounded t (cache w) ->
  cache_bounded (now e) (cache (world_of (weather_command update args e w))).
Proof.
  intros Ht Hc.
  rewrite weather_command_run.
  change (world_of (after ?t ?r)) with (world_of r).
  assert (Hsame : cache_bounded (now e) (cache w))
    by (apply (cache_bounded_later t); assumption).
  destruct (query_raises e); [rewrite reply_text_run; exact Hsame|].
  destruct args as [|a args].
  - destruct (user_settings w !! effective_user_id update) as [city|];
      [|rewrite reply_text_run; exact Hsame].
    destruct (String.eqb city ""); [rewrite reply_text_run; exact Hsame|].
    rewrite fetch_and_reply_cache. apply (get_weather_bounded _ _ _ t); assumption.
  - rewrite fetch_and_reply_cache. apply (get_weather_bounded _ _ _ t); assumption.
Qed.

(** X3.  When no entry of the cache outlives [t + 600], a call of
    [get_weather] at [t + 600] or later, for any city, asks the provider:
    nothing cached is served for more than 600 s. *)
Theorem bounded_cache_is_refetched (city : string) (e : env) (w : world) (t : Z) :
  cache_bounded t (cache w) ->
  t + 600 <= now e ->
  let r := get_weather city e w in
  http_calls (trace_of r) = [city]
  /\ outcome_of r = Ok (snapshot_of_outcome (provider e)).
Proof.
  intros Hc Ht r. subst r.
  rewrite get_weather_miss; [split; reflexivity|].
  unfold live_payload.
  destruct (cache w !! cache_key city) as [entry|] eqn:Hl; [|reflexivity].
  specialize (Hc _ _ Hl).
  replace (now e <? expires_at entry) with false
    by (symmetry; apply Z.ltb_ge; lia).
  reflexivity.
Qed.

(** X4.  The dictionary is built without a look at the types of the
    fields.  When the provider's description is not a str and the name is
    true, [/weather] stops in [capitalize] with an [AttributeError]: no
    reply is sent and no row is logged, and the dictionary stays in the
    cache for 600 s. *)
Theorem non_str_description_raises (update : Update) (a : string)
    (args : list string) (e : env) (w : world)
    (name temp feels_like d humidity speed : pyobj) :
  query_raises e = false ->
  is_None (loads (live_payload (now e) (cache w)
                    (cache_key (StrOps.join " " (a :: args))))) = true ->
  snapshot_of_outcome (provider e)
  = weather_dict name temp feels_like d humidity speed ->
  truthy name = true ->
  is_str d = false ->
  let r := weather_command update (a :: args) e w in
  outcome_of r = Raise AttributeError
  /\ replies (trace_of r) = []
  /\ logs (world_of r) = logs w
  /\ cache (world_of r) !! cache_key (StrOps.join " " (a :: args))
     = Some {| payload := dumps (weather_dict name temp feels_like d humidity speed);
               expires_at := now e + 600 |}.
Proof.
  intros Hq Hmiss%is_None_true Hsnap Hname Hd r. subst r.
  rewrite weather_command_run, Hq, fetch_and_reply_run.
  rewrite (get_weather_miss _ _ _ Hmiss), Hsnap, weather_message_dict, Hname.
  destruct d; try discriminate Hd;
    (split; [reflexivity|]; split; [reflexivity|]; split; [reflexivity|];
     apply lookup_insert_eq).
Qed.

(** X5.  A fetch that succeeds with a name that is not true (empty, null,
    zero) is answered like a failure: the reply and the log row carry the
    failure message, although the dictionary went into the cache. *)
Theorem falsy_name_is_a_failure (update : Update) (a : string)
    (args : list string) (e : env) (w : world)
    (name temp feels_like d humidity speed : pyobj) :
  query_raises e = false ->
  is_None (loads (live_payload (now e) (cache w)
                    (cache_key (StrOps.join " " (a :: args))))) = true ->
  snapshot_of_outcome (provider e)
  = weather_dict name temp feels_like d humidity speed ->
  truthy name = false ->
  let r := weather_command update (a :: args) e w in
  replies (trace_of r) = [failure_message]
  /\ logs (world_of r)
     = (if send_raises e || commit_raises e then logs w
        else (logs w ++ [{| user_id := effective_user_id update;
                            command := message_text update;
                            response := failure_message |}])%list)
  /\ cache (world_of r) !! cache_key (StrOps.join " " (a :: args))
     = Some {| payload := dumps (weather_dict name temp feels_like d humidity speed);
               expires_at := now e + 600 |}.
Proof.
  intros Hq Hmiss%is_None_true Hsnap Hname r. subst r.
  rewrite weather_command_run, Hq, fetch_and_reply_run.
  rewrite (get_weather_miss _ _ _ Hmiss), Hsnap, weather_message_dict, Hname.
  unfold logged.
  split; [reflexivity|].
  destruct (send_raises e), (commit_raises e);
    (split; [reflexivity|apply lookup_insert_eq]).
Qed.

(** X6.  [/weather] never changes [user_settings], hands at most one
    message to the transport, and adds at most one row to [logs]; a row is
    added only after a reply went out, and it carries the user, the
    command text and exactly that reply. *)
Theorem weather_log_matches_reply (update : Update) (args : list string)
    (e : env) (w : world) :
  let r := weather_command update args e w in
  user_settings (world_of r) = user_settings w
  /\ (length (replies (trace_of r)) <= 1)%nat
  /\ (logs (world_of r) = logs w
      \/ exists message,
           replies (trace_of r) = [message]
           /\ send_raises e = false
           /\ logs (world_of r)
              = (logs w ++ [{| user_id := effective_user_id update;
                               command := message_text update;
                               response := message |}])%list).
Proof.
  intros r. subst r.
  rewrite weather_command_run.
  assert (Hreply : forall message,
    let r := after [EvQuerySettings (effective_user_id update)]
               (reply_text message e w) in
    user_settings (world_of r) = user_settings w
    /\ (length (replies (trace_of r)) <= 1)%nat
    /\ (logs (world_of r) = logs w
        \/ exists message,
             replies (trace_of r) = [message]
             /\ send_raises e = false
             /\ logs (world_of r)
                = (logs w ++ [{| user_id := effective_user_id update;
                                 command := message_text update;
                                 response := message |}])%list)).
  { intros message. rewrite reply_text_run. simpl. auto. }
  assert (Hpath : forall city,
    let r := after [EvQuerySettings (effective_user_id update)]
               (fetch_and_reply update city e w) in
    user_settings (world_of r) = user_settings w
    /\ (length (replies (trace_of r)) <= 1)%nat
    /\ (logs (world_of r) = logs w
        \/ exists message,
             replies (trace_of r) = [message]
             /\ send_raises e = false
             /\ logs (world_of r)
                = (logs w ++ [{| user_id := effective_user_id update;
                                 command := message_text update;
                                 response := message |}])%list)).
  { intros city. rewrite fetch_and_reply_run.
    destruct (get_weather_shape city e w) as (weather & c & t1 & -> & Ht).
    destruct (weather_message weather) as [message|x].
    - unfold logged.
      destruct Ht as [->|[-> _]];
        destruct (send_raises e), (commit_raises e); simpl;
        (split; [reflexivity|]; split; [lia|]);
        first [left; reflexivity | right; exists message; auto].
    - destruct Ht as [->|[-> _]]; simpl; auto. }
  destruct (query_raises e); [apply Hreply|].
  destruct args as [|a args]; [|apply Hpath].
  destruct (user_settings w !! effective_user_id update) as [city|];
    [|apply Hreply].
  destruct (String.eqb city ""); [apply Hreply|apply Hpath].
Qed.


(** X8.  When the transport raises, its exception leaves [/weather]
    exactly on the runs that never reached [get_weather] (the settings
    error and the prompt are sent outside any [try]); on the weather path
    it is caught. *)
Theorem send_failure_escapes_early_paths (update : Update) (args : list string)
    (e : env) (w : world) :
  send_raises e = true ->
  let r := weather_command update args e w in
  outcome_of r = Raise TelegramError <-> cache_reads (trace_of r) = [].
Proof.
  intros Hsend r. subst r.
  rewrite weather_command_run.
  assert (Hreply : forall message,
    let r := after [EvQuerySettings (effective_user_id update)]
               (reply_text message e w) in
    outcome_of r = Raise TelegramError <-> cache_reads (trace_of r) = []).
  { intros message. rewrite reply_text_run, Hsend. simpl. tauto. }
  assert (Hpath : forall city,
    let r := after [EvQuerySettings (effective_user_id update)]
               (fetch_and_reply update city e w) in
    outcome_of r = Raise TelegramError <-> cache_reads (trace_of r) = []).
  { intros city. rewrite fetch_and_reply_run.
    destruct (get_weather_shape city e w) as (weather & c & t1 & -> & Ht).
    pose proof (weather_message_raises weather) as Hx.
    destruct (weather_message weather) as [message|x] eqn:Hm.
    - destruct Ht as [->|[-> _]]; simpl; split; discriminate.
    - specialize (Hx x eq_refl).
      destruct Ht as [->|[-> _]]; simpl; split;
        first [discriminate | intros [= ->]; contradiction]. }
  destruct (query_raises e); [apply Hreply|].
  destruct args as [|a args]; [|apply Hpath].
  destruct (user_settings w !! effective_user_id update) as [city|];
    [|apply Hreply].
  destruct (String.eqb city ""); [apply Hreply|apply Hpath].
Qed.

(** ** Further properties of [/setcity], [/getcity] and [/help] *)

Lemma db_ok_false (e : env) :
  db_ok e = false -> query_raises e = true \/ commit_raises e = true.
Proof.
  unfold db_ok. destruct (query_raises e), (commit_raises e); simpl; auto.
Qed.

Lemma store_city_fails (uid : Z) (city : string) (e : env) (w : world) :
  db_ok e = false ->
  store_city uid city e w = (Raise SQLAlchemyError, w, [EvQuerySettings uid]).
Proof.
  intros H.
  cbv [store_city query_user_setting bind emit ask raise ret get_world put_world].
  destruct (query_raises e) eqn:Hq; simpl; [reflexivity|].
  destruct (db_ok_false _ H) as [Hq'|Hc]; [congruence|].
  rewrite Hc. reflexivity.
Qed.

Lemma set_city_fails_run (update : Update) (args : list string) (e : env) (w : world) :
  (0 < length args)%nat ->
  db_ok e = false ->
  set_city update args e w
  = (if send_raises e then Raise TelegramError else Ok tt, w,
     [EvQuerySettings (effective_user_id update); EvReply setcity_error_message]).
Proof.
  intros Hargs Hdb.
  unfold set_city.
  destruct args as [|a args]; [simpl in Hargs; lia|].
  replace (Z.of_nat (length (a :: args)) =? 0) with false
    by (symmetry; apply Z.eqb_neq; simpl length; lia).
  unfold try_or_return, try_except, bind.
  rewrite (store_city_fails _ _ _ _ Hdb). simpl.
  rewrite reply_text_run.
  destruct (send_raises e); reflexivity.
Qed.

Lemma set_city_empty_run (update : Update) (e : env) (w : world) :
  set_city update [] e w
  = (if send_raises e then Raise TelegramError else Ok tt, w,
     [EvReply setcity_prompt_message]).
Proof. unfold set_city. simpl. apply reply_text_run. Qed.

Lemma get_city_fails_run (update : Update) (e : env) (w : world) :
  query_raises e = true ->
  get_city update e w
  = (if send_raises e then Raise TelegramError else Ok tt, w,
     [EvQuerySettings (effective_user_id update); EvReply getcity_error_message]).
Proof.
  intros Hq.
  cbv [get_city query_user_setting try_except bind emit ask raise ret get_world].
  rewrite Hq. simpl.
  rewrite reply_text_run. reflexivity.
Qed.

(** X9.  [/setcity] without arguments asks for a city and does nothing
    else, whatever the state of the database: [user_settings] is not even
    read. *)
Theorem set_city_without_args (update : Update) (e : env) (w : world) :
  let r := set_city update [] e w in
  replies (trace_of r) = [setcity_prompt_message]
  /\ settings_queries (trace_of r) = []
  /\ world_of r = w.
Proof. intros r. subst r. rewrite set_city_empty_run. repeat split. Qed.

(** X10.  When the query or the commit raises, [/setcity] stores nothing:
    every table and the cache are as before, and the one reply is the
    error message, not the confirmation. *)
Theorem set_city_db_failure (update : Update) (args : list string)
    (e : env) (w : world) :
  (0 < length args)%nat ->
  db_ok e = false ->
  let r := set_city update args e w in
  world_of r = w
  /\ replies (trace_of r) = [setcity_error_message].
Proof.
  intros Hargs Hdb r. subst r.
  rewrite (set_city_fails_run _ _ _ _ Hargs Hdb). repeat split.
Qed.

(** X11.  Whatever happens, [/setcity] leaves [logs], the cache and the
    rows of all other users as they are. *)
Theorem set_city_frame (update : Update) (args : list string)
    (e : env) (w : world) (other : Z) :
  other <> effective_user_id update ->
  let r := set_city update args e w in
  logs (world_of r) = logs w
  /\ cache (world_of r) = cache w
  /\ user_settings (world_of r) !! other = user_settings w !! other.
Proof.
  intros Hother r. subst r.
  destruct args as [|a args]; [rewrite set_city_empty_run; repeat split|].
  destruct (db_ok e) eqn:Hdb.
  - rewrite set_city_run by (simpl; lia || exact Hdb). simpl.
    split; [reflexivity|]. split; [reflexivity|].
    apply lookup_insert_ne. congruence.
  - rewrite set_city_fails_run by (simpl; lia || exact Hdb). repeat split.
Qed.

(** X12.  The commit comes before the confirmation, and the confirmation
    is sent outside the [try]: when the transport raises, the exception
    leaves the handler and the city is stored all the same. *)
Theorem set_city_stored_before_reply (update : Update) (args : list string)
    (e : env) (w : world) :
  (0 < length args)%nat ->
  db_ok e = true ->
  send_raises e = true ->
  let r := set_city update args e w in
  outcome_of r = Raise TelegramError
  /\ user_settings (world_of r) !! effective_user_id update
     = Some (StrOps.join " " args).
Proof.
  intros Hargs Hdb Hsend r. subst r.
  rewrite (set_city_run _ _ _ _ Hargs Hdb), Hsend. simpl.
  split; [reflexivity|apply lookup_insert_eq].
Qed.

(** X13.  [/getcity] only reads: in every environment the tables and the
    cache are as before, [user_settings] is queried once and one reply is
    handed over, which is the error message when the query raises, the
    stored city when there is a row, and the hint to use [/setcity] when
    there is none.  Only an exception of the transport leaves the
    handler. *)
Theorem get_city_reads_only (update : Update) (e : env) (w : world) :
  let r := get_city update e w in
  world_of r = w
  /\ settings_queries (trace_of r) = [effective_user_id update]
  /\ replies (trace_of r)
     = [if query_raises e then getcity_error_message
        else match user_settings w !! effective_user_id update with
             | Some city => getcity_prefix ++ city
             | None => getcity_unset_message
             end]
  /\ outcome_of r = if send_raises e then Raise TelegramError else Ok tt.
Proof.
  intros r. subst r.
  destruct (query_raises e) eqn:Hq.
  - rewrite (get_city_fails_run _ _ _ Hq). repeat split.
  - rewrite (get_city_run _ _ _ Hq). repeat split.
Qed.

(** X14.  [/help] touches no table, no cache and no provider: the run is
    one reply, the help text, which greets the user by first name, or by
    the default name when the first name is missing or empty. *)
Theorem help_command_only_replies (first_name : option string) (e : env) (w : world) :
  let r := help_command first_name e w in
  world_of r = w
  /\ trace_of r
     = [EvReply (help_text match first_name with
                           | Some name =>
                               if String.eqb name "" then default_first_name else name
                           | None => default_first_name
                           end)].
Proof.
  intros r. subst r. unfold help_command.
  rewrite reply_text_run. split; [reflexivity|].
  destruct first_name as [name|]; [|reflexivity].
  simpl. destruct (String.eqb name ""); reflexivity.
Qed.

(** X15.  Two [/weather] commands for the same city: when the first one
    fetched a snapshot and the second one comes less than 600 s later,
    the second makes no request to the provider, whatever the provider
    would answer by then, and hands the transport the same reply as the
    first. *)
Theorem repeated_weather_uses_cache (update : Update) (a : string)
    (args : list string) (e1 e2 : env) (w : world) :
  query_raises e1 = false ->
  query_raises e2 = false ->
  is_None (loads (live_payload (now e1) (cache w)
                    (cache_key (StrOps.join " " (a :: args))))) = true ->
  is_None (snapshot_of_outcome (provider e1)) = false ->
  now e2 < now e1 + 600 ->
  let r1 := weather_command update (a :: args) e1 w in
  let r2 := weather_command update (a :: args) e2 (world_of r1) in
  replies (trace_of r2) = replies (trace_of r1)
  /\ http_calls (trace_of r2) = [].
Proof.
  intros Hq1 Hq2 Hmiss%is_None_true Hok Hlt r1 r2. subst r2 r1.
  set (city := StrOps.join " " (a :: args)) in *.
  set (v := snapshot_of_outcome (provider e1)) in *.
  assert (Hv : v <> PyNone) by (intros Hv; rewrite Hv in Hok; discriminate Hok).
  assert (Hhit : forall w1,
    cache w1 = <[cache_key city := {| payload := dumps v;
                                      expires_at := now e1 + 600 |}]> (cache w) ->
    get_weather city e2 w1 = (Ok v, w1, [EvCacheGet (cache_key city)])).
  { intros w1 Hc. apply get_weather_hit; [|exact Hv].
    rewrite Hc, live_payload_insert.
    apply Z.ltb_lt in Hlt. rewrite Hlt. reflexivity. }
  rewrite !weather_command_run, Hq1, Hq2.
  cbn [world_of after fst snd].
  change (StrOps.join " " (a :: args)) with city.
  rewrite (fetch_and_reply_run update city e1 w).
  rewrite (get_weather_miss _ _ _ Hmiss). fold v.
  destruct (weather_message v) as [message|x] eqn:Hm.
  - cbn [outcome_of world_of trace_of fst snd].
    rewrite fetch_and_reply_run, Hhit, Hm.
    + split; reflexivity.
    + unfold logged. destruct (send_raises e1), (commit_raises e1); reflexivity.
  - cbn [outcome_of world_of trace_of fst snd].
    rewrite fetch_and_reply_run, Hhit, Hm; [split; reflexivity|reflexivity].
Qed.

End Bot.

(** ** Instances *)

Lemma get_weather_on_miss_witness :
  let e := calm 0 (RequestFailed "timed out") in
  let r := get_weather plain_repr "Moscow" e empty_world in
  http_calls (trace_of r) = ["Moscow"]
  /\ outcome_of r = Ok PyNone
  /\ cache_writes (trace_of r) = [cache_key plain_repr "Moscow"]
  /\ cache (world_of r)
     = <[cache_key plain_repr "Moscow" :=
           {| payload := dumps PyNone; expires_at := 0 + 600 |}]> ∅
  /\ (PyNone = PyNone ->
      forall e', http_calls (trace_of (get_weather plain_repr "Moscow" e' (world_of r)))
                 = ["Moscow"]).
Proof.
  apply (get_weather_on_miss plain_repr "Moscow"
           (calm 0 (RequestFailed "timed out")) empty_world).
  reflexivity.
Defined.

(** C1 as the specification has it fails: a fetch that timed out on an
    empty cache leaves an entry for the city, the null document, live for
    600 s. *)
Lemma failed_fetch_is_stored :
  let e := calm 0 (RequestFailed "timed out") in
  let r := get_weather plain_repr "Moscow" e empty_world in
  cache empty_world !! cache_key plain_repr "Moscow" = None
  /\ outcome_of r = Ok PyNone
  /\ cache_writes (trace_of r) = [cache_key plain_repr "Moscow"]
  /\ cache (world_of r) !! cache_key plain_repr "Moscow"
     = Some {| payload := Json PyNone; expires_at := 600 |}
  /\ cache (world_of r) <> cache empty_world.
Proof.
  cbv zeta.
  rewrite (get_weather_miss plain_repr "Moscow" _ empty_world eq_refl).
  simpl.
  split; [reflexivity|].
  split; [reflexivity|].
  split; [reflexivity|].
  split; [apply lookup_insert_eq|].
  intros H.
  apply (f_equal (fun c => c !! cache_key plain_repr "Moscow")) in H.
  rewrite lookup_insert_eq in H. discriminate H.
Qed.

Lemma get_weather_ttl_witness :
  let e1 := calm 0 (Responded moscow_response) in
  let e2 := calm 599 (RequestFailed "unreachable") in
  let e3 := calm 600 (RequestFailed "unreachable") in
  let r1 := get_weather plain_repr "Moscow" e1 empty_world in
  let r2 := get_weather plain_repr "Moscow" e2 (world_of r1) in
  let r3 := get_weather plain_repr "Moscow" e3 (world_of r2) in
  r2 = (Ok (snapshot_of_outcome (provider e1)), world_of r1,
        [EvCacheGet (cache_key plain_repr "Moscow")])
  /\ http_calls (trace_of r1 ++ trace_of r2) = ["Moscow"]
  /\ http_calls (trace_of r3) = ["Moscow"].
Proof.
  apply (get_weather_ttl plain_repr "Moscow"
           (calm 0 (Responded moscow_response))
           (calm 599 (RequestFailed "unreachable"))
           (calm 600 (RequestFailed "unreachable")) empty_world);
    [reflexivity | reflexivity | simpl; lia | simpl; lia].
Defined.

(** C3 as the specification has it fails: [/weather Moscow] reads the
    Preference Store although the city is given, and when that read raises
    the user gets the settings error and no weather is fetched for
    Moscow. *)
Lemma store_is_read_despite_args :
  let update := {| effective_user_id := 42; message_text := "/weather Moscow" |} in
  let e := {| now := 0;
              query_raises := true;
              provider := Responded moscow_response;
              send_raises := false;
              commit_raises := false |} in
  let r := weather_command plain_repr StrOps.ascii_capitalize update ["Moscow"]
             e empty_world in
  settings_queries (trace_of r) = [42]
  /\ replies (trace_of r) = [settings_error_message]
  /\ cache_reads (trace_of r) = []
  /\ http_calls (trace_of r) = []
  /\ world_of r = empty_world.
Proof.
  cbv zeta. rewrite weather_command_run. simpl.
  repeat split.
Qed.

Lemma weather_without_city_prompts_witness :
  let update := {| effective_user_id := 42; message_text := "/weather" |} in
  let r := weather_command plain_repr StrOps.ascii_capitalize update []
             (calm 0 (Responded moscow_response)) empty_world in
  replies (trace_of r) = [prompt_message]
  /\ cache_reads (trace_of r) = []
  /\ http_calls (trace_of r) = []
  /\ world_of r = empty_world.
Proof.
  apply (weather_without_city_prompts plain_repr StrOps.ascii_capitalize
           {| effective_user_id := 42; message_text := "/weather" |}
           (calm 0 (Responded moscow_response)) empty_world);
    reflexivity.
Defined.

Lemma set_city_then_get_city_witness :
  let update := {| effective_user_id := 42; message_text := "/setcity" |} in
  let e := calm 0 (RequestFailed "unused") in
  let w1 := world_of (set_city update ["Paris"] e empty_world) in
  let w2 := world_of (set_city update ["New"; "York"] e w1) in
  user_settings w1 = <[42 := "Paris"]> ∅
  /\ replies (trace_of (get_city update e w1)) = [getcity_prefix ++ "Paris"]
  /\ user_settings w2 = <[42 := "New York"]> ∅
  /\ replies (trace_of (get_city update e w2)) = [getcity_prefix ++ "New York"]
  /\ world_of (set_city update ["Paris"] e w1) = w1.
Proof.
  apply (set_city_then_get_city
           {| effective_user_id := 42; message_text := "/setcity" |}
           ["Paris"] ["New"; "York"]
           (calm 0 (RequestFailed "unused")) (calm 0 (RequestFailed "unused"))
           (calm 0 (RequestFailed "unused")) empty_world);
    first [reflexivity | simpl; lia].
Defined.

Lemma failed_fetch_reply_witness :
  let update := {| effective_user_id := 42; message_text := "/weather Atlantis" |} in
  let e := calm 0 (Responded {| status_code := 404;
                                text := "city not found";
                                json_body := None |}) in
  let r := weather_command plain_repr StrOps.ascii_capitalize update ["Atlantis"]
             e empty_world in
  replies (trace_of r) = [failure_message]
  /\ logs (world_of r)
     = [{| user_id := 42; command := "/weather Atlantis";
           response := failure_message |}].
Proof.
  apply (failed_fetch_reply plain_repr StrOps.ascii_capitalize
           {| effective_user_id := 42; message_text := "/weather Atlantis" |}
           ["Atlantis"]
           (calm 0 (Responded {| status_code := 404;
                                 text := "city not found";
                                 json_body := None |}))
           empty_world).
  - vm_compute. discriminate.
  - reflexivity.
Defined.

Lemma send_failure_skips_log_witness :
  logs (world_of
          (weather_command plain_repr StrOps.ascii_capitalize
             {| effective_user_id := 42; message_text := "/weather Moscow" |}
             ["Moscow"]
             {| now := 0;
                query_raises := false;
                provider := Responded moscow_response;
                send_raises := true;
                commit_raises := false |}
             empty_world))
  = [].
Proof.
  apply (send_failure_skips_log plain_repr StrOps.ascii_capitalize
           {| effective_user_id := 42; message_text := "/weather Moscow" |}
           ["Moscow"]
           {| now := 0;
              query_raises := false;
              provider := Responded moscow_response;
              send_raises := true;
              commit_raises := false |}
           empty_world).
  reflexivity.
Defined.

Lemma log_failure_is_silent_witness :
  let update := {| effective_user_id := 42; message_text := "/weather Moscow" |} in
  let e := {| now := 0;
              query_raises := false;
              provider := Responded moscow_response;
              send_raises := false;
              commit_raises := true |} in
  let r := weather_command plain_repr StrOps.ascii_capitalize update ["Moscow"]
             e empty_world in
  let r' := weather_command plain_repr StrOps.ascii_capitalize update ["Moscow"]
              (with_commit_raises e false) empty_world in
  trace_of r = trace_of r'
  /\ outcome_of r = outcome_of r'
  /\ (replies (trace_of r) <> [] -> outcome_of r = Ok tt)
  /\ logs (world_of r) = [].
Proof.
  apply (log_failure_is_silent plain_repr StrOps.ascii_capitalize
           {| effective_user_id := 42; message_text := "/weather Moscow" |}
           ["Moscow"]
           {| now := 0;
              query_raises := false;
              provider := Responded moscow_response;
              send_raises := false;
              commit_raises := true |}
           empty_world);
    reflexivity.
Defined.

(** C9 as the specification has it fails: the reply to [/weather Moscow]
    carries the description as [Clear]; the lower-case [clear] occurs
    nowhere in it. *)
Lemma moscow_reply_lacks_lowercase_clear :
  let update := {| effective_user_id := 42; message_text := "/weather Moscow" |} in
  let r := weather_command plain_repr StrOps.ascii_capitalize update ["Moscow"]
             (calm 0 (Responded moscow_response)) empty_world in
  replies (trace_of r) = [moscow_reply]
  /\ StrOps.contains moscow_reply "clear" = false
  /\ logs (world_of r)
     = [{| user_id := 42; command := "/weather Moscow"; response := moscow_reply |}].
Proof.
  cbv zeta. unfold empty_world. rewrite moscow_run.
  split; [reflexivity|].
  split; [vm_compute; reflexivity|reflexivity].
Qed.

(** ** Instances of the further properties of the bot *)

Lemma empty_cache_bounded (t : Z) : cache_bounded t (cache empty_world).
Proof. intros key entry H. simpl in H. rewrite lookup_empty in H. discriminate H. Qed.

Lemma get_weather_touches_own_entry_witness :
  let e := calm 0 (Responded moscow_response) in
  let w := world_of (get_weather plain_repr "Paris" e empty_world) in
  let r := get_weather plain_repr "Moscow" e w in
  user_settings (world_of r) = user_settings w
  /\ logs (world_of r) = logs w
  /\ cache (world_of r) !! cache_key plain_repr "Paris"
     = cache w !! cache_key plain_repr "Paris".
Proof.
  apply (get_weather_touches_own_entry plain_repr "Moscow"
           (cache_key plain_repr "Paris")).
  vm_compute. discriminate.
Defined.

Lemma weather_command_keeps_cache_bounded_witness :
  cache_bounded 5
    (cache (world_of
              (weather_command plain_repr StrOps.ascii_capitalize
                 {| effective_user_id := 42; message_text := "/weather Moscow" |}
                 ["Moscow"] (calm 5 (Responded moscow_response)) empty_world))).
Proof.
  apply (weather_command_keeps_cache_bounded plain_repr StrOps.ascii_capitalize
           {| effective_user_id := 42; message_text := "/weather Moscow" |}
           ["Moscow"] (calm 5 (Responded moscow_response)) empty_world 0).
  - simpl. lia.
  - apply empty_cache_bounded.
Defined.

Lemma bounded_cache_is_refetched_witness :
  let w := world_of (get_weather plain_repr "Moscow"
                       (calm 0 (Responded moscow_response)) empty_world) in
  let r := get_weather plain_repr "Moscow" (calm 600 (RequestFailed "unreachable")) w in
  http_calls (trace_of r) = ["Moscow"]
  /\ outcome_of r = Ok PyNone.
Proof.
  apply (bounded_cache_is_refetched plain_repr "Moscow"
           (calm 600 (RequestFailed "unreachable"))
           (world_of (get_weather plain_repr "Moscow"
                        (calm 0 (Responded moscow_response)) empty_world))
           0).
  - apply (get_weather_bounded plain_repr "Moscow"
             (calm 0 (Responded moscow_response)) empty_world 0).
    + simpl. lia.
    + apply empty_cache_bounded.
  - simpl. lia.
Defined.

Lemma non_str_description_raises_witness :
  let update := {| effective_user_id := 42; message_text := "/weather Moscow" |} in
  let e := calm 0 (answered null_description_payload) in
  let r := weather_command plain_repr StrOps.ascii_capitalize update ["Moscow"]
             e empty_world in
  outcome_of r = Raise AttributeError
  /\ replies (trace_of r) = []
  /\ logs (world_of r) = []
  /\ cache (world_of r) !! cache_key plain_repr "Moscow"
     = Some {| payload := dumps (weather_dict (PyStr "Moscow") (PyInt 5) (PyInt 3)
                                   PyNone (PyInt 40) (PyInt 2));
               expires_at := 0 + 600 |}.
Proof.
  apply (non_str_description_raises plain_repr StrOps.ascii_capitalize
           {| effective_user_id := 42; message_text := "/weather Moscow" |}
           "Moscow" [] (calm 0 (answered null_description_payload)) empty_world
           (PyStr "Moscow") (PyInt 5) (PyInt 3) PyNone (PyInt 40) (PyInt 2));
    reflexivity.
Defined.

Lemma falsy_name_is_a_failure_witness :
  let update := {| effective_user_id := 42; message_text := "/weather Moscow" |} in
  let e := calm 0 (answered empty_name_payload) in
  let r := weather_command plain_repr StrOps.ascii_capitalize update ["Moscow"]
             e empty_world in
  replies (trace_of r) = [failure_message]
  /\ logs (world_of r)
     = [{| user_id := 42; command := "/weather Moscow"; response := failure_message |}]
  /\ cache (world_of r) !! cache_key plain_repr "Moscow"
     = Some {| payload := dumps (weather_dict (PyStr "") (PyInt 5) (PyInt 3)
                                   (PyStr "clear") (PyInt 40) (PyInt 2));
               expires_at := 0 + 600 |}.
Proof.
  apply (falsy_name_is_a_failure plain_repr StrOps.ascii_capitalize
           {| effective_user_id := 42; message_text := "/weather Moscow" |}
           "Moscow" [] (calm 0 (answered empty_name_payload)) empty_world
           (PyStr "") (PyInt 5) (PyInt 3) (PyStr "clear") (PyInt 40) (PyInt 2));
    reflexivity.
Defined.


Lemma send_failure_escapes_early_paths_witness :
  let update := {| effective_user_id := 42; message_text := "/weather" |} in
  let e := {| now := 0;
              query_raises := false;
              provider := Responded moscow_response;
              send_raises := true;
              commit_raises := false |} in
  let r := weather_command plain_repr StrOps.ascii_capitalize update [] e empty_world in
  outcome_of r = Raise TelegramError <-> cache_reads (trace_of r) = [].
Proof.
  apply (send_failure_escapes_early_paths plain_repr StrOps.ascii_capitalize
           {| effective_user_id := 42; message_text := "/weather" |} []
           {| now := 0;
              query_raises := false;
              provider := Responded moscow_response;
              send_raises := true;
              commit_raises := false |}
           empty_world).
  reflexivity.
Defined.

Lemma set_city_db_failure_witness :
  let update := {| effective_user_id := 42; message_text := "/setcity Paris" |} in
  let e := {| now := 0;
              query_raises := false;
              provider := RequestFailed "unused";
              send_raises := false;
              commit_raises := true |} in
  let r := set_city update ["Paris"] e empty_world in
  world_of r = empty_world
  /\ replies (trace_of r) = [setcity_error_message].
Proof.
  apply (set_city_db_failure
           {| effective_user_id := 42; message_text := "/setcity Paris" |}
           ["Paris"]
           {| now := 0;
              query_raises := false;
              provider := RequestFailed "unused";
              send_raises := false;
              commit_raises := true |}
           empty_world);
    first [reflexivity | simpl; lia].
Defined.

Lemma set_city_frame_witness :
  let update := {| effective_user_id := 42; message_text := "/setcity Paris" |} in
  let e := calm 0 (RequestFailed "unused") in
  let w := world_of (set_city {| effective_user_id := 7; message_text := "/setcity Oslo" |}
                       ["Oslo"] e empty_world) in
  let r := set_city update ["Paris"] e w in
  logs (world_of r) = logs w
  /\ cache (world_of r) = cache w
  /\ user_settings (world_of r) !! 7 = user_settings w !! 7.
Proof.
  apply (set_city_frame
           {| effective_user_id := 42; message_text := "/setcity Paris" |}
           ["Paris"] (calm 0 (RequestFailed "unused"))
           (world_of (set_city {| effective_user_id := 7; message_text := "/setcity Oslo" |}
                        ["Oslo"] (calm 0 (RequestFailed "unused")) empty_world))
           7).
  simpl. lia.
Defined.

Lemma set_city_stored_before_reply_witness :
  let update := {| effective_user_id := 42; message_text := "/setcity Paris" |} in
  let e := {| now := 0;
              query_raises := false;
              provider := RequestFailed "unused";
              send_raises := true;
              commit_raises := false |} in
  let r := set_city update ["Paris"] e empty_world in
  outcome_of r = Raise TelegramError
  /\ user_settings (world_of r) !! 42 = Some "Paris".
Proof.
  apply (set_city_stored_before_reply
           {| effective_user_id := 42; message_text := "/setcity Paris" |}
           ["Paris"]
           {| now := 0;
              query_raises := false;
              provider := RequestFailed "unused";
              send_raises := true;
              commit_raises := false |}
           empty_world);
    first [reflexivity | simpl; lia].
Defined.

Lemma repeated_weather_uses_cache_witness :
  let update := {| effective_user_id := 42; message_text := "/weather Moscow" |} in
  let r1 := weather_command plain_repr StrOps.ascii_capitalize update ["Moscow"]
              (calm 0 (Responded moscow_response)) empty_world in
  let r2 := weather_command plain_repr StrOps.ascii_capitalize update ["Moscow"]
              (calm 599 (RequestFailed "unreachable")) (world_of r1) in
  replies (trace_of r2) = replies (trace_of r1)
  /\ http_calls (trace_of r2) = [].
Proof.
  apply (repeated_weather_uses_cache plain_repr StrOps.ascii_capitalize
           {| effective_user_id := 42; message_text := "/weather Moscow" |}
           "Moscow" [] (calm 0 (Responded moscow_response))
           (calm 599 (RequestFailed "unreachable")) empty_world);
    first [reflexivity | simpl; lia].
Defined.

(** ** Properties of the API *)

Lemma query_offset (offset : option Z) (o : Z) :
  Api.Query 0 (Some 0) None offset = Some o -> 0 <= o.
Proof.
  unfold Api.Query. destruct offset as [x|]; simpl.
  - destruct (0 <=? x) eqn:H; simpl; [|discriminate].
    intros [= <-]. apply Z.leb_le in H. exact H.
  - intros [= <-]. lia.
Qed.











(** ** Instances of the properties of the API *)





